(** * Receipt text extraction

    A shallow embedding of the two extraction pipelines of the receipt
    tracker, [ocr_processor.py] and [simple_ocr.py]: vendor, amount, date,
    category and line-item extraction from the text of a receipt, and the
    orchestrating [process_receipt].

    Conventions of the model.
    - A Python [str] is a list of Unicode code points ([char := N]).
      Character classification ([isspace], [isdigit], [isupper], [lower],
      the [\d], [\w] classes and IGNORECASE folding of [re]) is given by its
      ASCII part; [isspace] and [\s] carry the full Unicode white-space list.
      Other code points (such as the Naira sign U+20A6) are caseless symbols.
    - A Python [float] is a binary64 number.  A finite one is the rational
      it denotes (a [Q], kept reduced by [Qred]), and [fl] rounds a rational
      to the nearest binary64 number, ties to even; every [float] operation
      of the sources is [fl] of its exact result.  The program forms no
      negative float.  [float(s)] and the division of a price by a quantity
      can overflow: their results are of type [pyfloat], a finite number or
      [inf].  The other operations have operands bounded by the length of
      the text, which is below [2 ^ 63] for a [str], and cannot overflow.
    - A Python [int] is a [Z]; [int(s)] has the limit of 4300 digits that
      CPython sets by default.
    - An exception is a value of [exn]; code that can raise lives in the
      error monad [result].
    - [process_receipt] is modelled from the text on that was read from the
      file: reading the file (OCR, PDF text layer) is outside the model. *)

From Stdlib Require Import Ascii String.
From Stdlib Require Import List NArith ZArith QArith Qround Qminmax Bool Lia.
Import ListNotations.

Close Scope Q_scope.
Open Scope string_scope.
Open Scope nat_scope.
Open Scope list_scope.

(** ** Characters and strings *)

Definition char := N.
Definition str := list char.

Definition ch (a : ascii) : char := N_of_ascii a.

(** Decoding of the UTF-8 bytes of a literal into code points. *)
Fixpoint utf8_decode (bs : list N) : str :=
  match bs with
  | [] => []
  | b :: rest =>
      if (b <? 128)%N then b :: utf8_decode rest
      else if (b <? 224)%N then
        match rest with
        | b2 :: rest' => ((b - 192) * 64 + (b2 - 128))%N :: utf8_decode rest'
        | [] => [b]
        end
      else if (b <? 240)%N then
        match rest with
        | b2 :: b3 :: rest' =>
            ((b - 224) * 4096 + (b2 - 128) * 64 + (b3 - 128))%N :: utf8_decode rest'
        | _ => [b]
        end
      else
        match rest with
        | b2 :: b3 :: b4 :: rest' =>
            ((b - 240) * 262144 + (b2 - 128) * 4096 + (b3 - 128) * 64 + (b4 - 128))%N
              :: utf8_decode rest'
        | _ => [b]
        end
  end.

(** A raw literal, [r'...'] in the source. *)
Definition raw (s : string) : str :=
  utf8_decode (map N_of_ascii (list_ascii_of_string s)).

(** The escapes of an ordinary literal that the sources use: [\n] and [\t]. *)
Fixpoint unescape (s : str) : str :=
  match s with
  | 92%N :: 110%N :: rest => 10%N :: unescape rest
  | 92%N :: 116%N :: rest => 9%N :: unescape rest
  | c :: rest => c :: unescape rest
  | [] => []
  end.

(** An ordinary literal, ['...'] in the source. *)
Definition py (s : string) : str := unescape (raw s).

Definition str_eqb (a b : str) : bool :=
  if list_eq_dec N.eq_dec a b then true else false.

Definition in_range (lo hi c : N) : bool := ((lo <=? c) && (c <=? hi))%N.

(** [str.isspace] on one character. *)
Definition is_space (c : char) : bool :=
  in_range 9 13 c || in_range 28 32 c || (c =? 133)%N || (c =? 160)%N
  || (c =? 5760)%N || in_range 8192 8202 c || (c =? 8232)%N || (c =? 8233)%N
  || (c =? 8239)%N || (c =? 8287)%N || (c =? 12288)%N.

Definition is_digit (c : char) : bool := in_range 48 57 c.
Definition is_upper (c : char) : bool := in_range 65 90 c.
Definition is_lower (c : char) : bool := in_range 97 122 c.
Definition is_alpha (c : char) : bool := is_upper c || is_lower c.
Definition is_word (c : char) : bool := is_alpha c || is_digit c || (c =? 95)%N.

Definition lower_char (c : char) : char := if is_upper c then (c + 32)%N else c.
Definition upper_char (c : char) : char := if is_lower c then (c - 32)%N else c.

(** [s.lower()] *)
Definition lower (s : str) : str := map lower_char s.

Fixpoint lstrip (s : str) : str :=
  match s with
  | c :: rest => if is_space c then lstrip rest else s
  | [] => []
  end.

Definition rstrip (s : str) : str := rev (lstrip (rev s)).

(** [s.strip()] *)
Definition strip (s : str) : str := rstrip (lstrip s).

Fixpoint startswith (p s : str) : bool :=
  match p, s with
  | [], _ => true
  | a :: p', b :: s' => (a =? b)%N && startswith p' s'
  | _ :: _, [] => false
  end.

(** [p in s] *)
Fixpoint contains (p s : str) : bool :=
  startswith p s || match s with [] => false | _ :: s' => contains p s' end.

(** [any(k in s for k in keys)] *)
Definition any_in (keys : list str) (s : str) : bool :=
  existsb (fun k => contains k s) keys.

(** [s.split(c)] for a one-character separator: always at least one piece. *)
Fixpoint split_char (c : char) (s : str) : list str :=
  match s with
  | [] => [[]]
  | x :: rest =>
      if (x =? c)%N then [] :: split_char c rest
      else match split_char c rest with
           | piece :: pieces => (x :: piece) :: pieces
           | [] => [[x]]
           end
  end.

(** [s.split(sep, 1)]: cut at the first occurrence of [sep], if any. *)
Fixpoint split_once (sep s : str) : list str :=
  if startswith sep s then [[]; skipn (length sep) s]
  else match s with
       | [] => [[]]
       | x :: rest =>
           match split_once sep rest with
           | [before; after] => [x :: before; after]
           | _ => [s]
           end
       end.

(** [s.split()]: the maximal runs of characters that are not white space. *)
Fixpoint split_ws_aux (cur : str) (s : str) : list str :=
  match s with
  | [] => match cur with [] => [] | _ => [rev cur] end
  | x :: rest =>
      if is_space x
      then match cur with [] => split_ws_aux [] rest | _ => rev cur :: split_ws_aux [] rest end
      else split_ws_aux (x :: cur) rest
  end.

Definition split_ws (s : str) : list str := split_ws_aux [] s.

(** [s.replace(c, '')] for a one-character [c]. *)
Definition remove_char (c : char) (s : str) : str :=
  filter (fun x => negb (x =? c)%N) s.

(** [s.isdigit()] *)
Definition isdigit (s : str) : bool :=
  match s with [] => false | _ => forallb is_digit s end.

(** [s.title()] *)
Fixpoint title_aux (prev_cased : bool) (s : str) : str :=
  match s with
  | [] => []
  | c :: rest =>
      if is_alpha c
      then (if prev_cased then lower_char c else upper_char c) :: title_aux true rest
      else c :: title_aux false rest
  end.

Definition title (s : str) : str := title_aux false s.

(** [s[i:j]] for [0 <= i]. *)
Definition slice (s : str) (i j : nat) : str := firstn (j - i) (skipn i s).

(** The non-empty stripped lines:
    [[line.strip() for line in text.split('\n') if line.strip()]] *)
Definition stripped_lines (text : str) : list str :=
  map strip (filter (fun line => negb (str_eqb (strip line) [])) (split_char 10%N text)).

(** ** Regular expressions: the part of Python's [re] that the sources use *)

Module Re.

(** An item of a character set [[...]]. *)
Inductive set_item : Type :=
| SRange (lo hi : char)
| SSpace
| SDigit
| SWord.

Inductive regex : Type :=
| REmpty
| RChar (c : char)
| RSet (negated : bool) (items : list set_item)
| RBol
| REol
| RSeq (a b : regex)
| RAlt (a b : regex)
| RRep (greedy : bool) (lo : nat) (hi : option nat) (a : regex)
| RGroup (i : nat) (a : regex)
| RFail.

(** *** Parsing of pattern strings *)

Definition is_ch (a : ascii) (c : char) : bool := (c =? ch a)%N.

Fixpoint read_nat (acc : nat) (s : str) : nat * str :=
  match s with
  | c :: rest => if is_digit c then read_nat (10 * acc + N.to_nat (c - 48)) rest else (acc, s)
  | [] => (acc, s)
  end.

(** A class escape or an escaped literal, inside or outside a set. *)
Definition escape_item (c : char) : set_item :=
  if is_ch "s" c then SSpace
  else if is_ch "d" c then SDigit
  else if is_ch "w" c then SWord
  else if is_ch "n" c then SRange 10%N 10%N
  else if is_ch "t" c then SRange 9%N 9%N
  else SRange c c.

(** The items of a set, up to the closing bracket. *)
Fixpoint parse_set (s : str) : option (list set_item * str) :=
  match s with
  | [] => None
  | c :: rest =>
      if is_ch "]" c then Some ([], rest)
      else if is_ch "\" c then
        match rest with
        | e :: rest' =>
            match parse_set rest' with
            | Some (items, s') => Some (escape_item e :: items, s')
            | None => None
            end
        | [] => None
        end
      else
        match rest with
        | d :: hi :: rest' =>
            if is_ch "-" d && negb (is_ch "]" hi) then
              match parse_set rest' with
              | Some (items, s') => Some (SRange c hi :: items, s')
              | None => None
              end
            else
              match parse_set rest with
              | Some (items, s') => Some (SRange c c :: items, s')
              | None => None
              end
        | _ =>
            match parse_set rest with
            | Some (items, s') => Some (SRange c c :: items, s')
            | None => None
            end
        end
  end.

(** A quantifier after an atom: [*], [+], [?], [{m}], [{m,n}], each
    possibly followed by [?] for the lazy variant. *)
Definition parse_quant (a : regex) (s : str) : regex * str :=
  let quant (lo : nat) (hi : option nat) (s' : str) :=
    match s' with
    | q :: s'' => if is_ch "?" q then (RRep false lo hi a, s'') else (RRep true lo hi a, s')
    | [] => (RRep true lo hi a, s')
    end in
  match s with
  | c :: rest =>
      if is_ch "*" c then quant 0 None rest
      else if is_ch "+" c then quant 1 None rest
      else if is_ch "?" c then quant 0 (Some 1) rest
      else if is_ch "{" c then
        let (lo, s1) := read_nat 0 rest in
        match s1 with
        | d :: s2 =>
            if is_ch "}" d then quant lo (Some lo) s2
            else if is_ch "," d then
              let (hi, s3) := read_nat 0 s2 in
              match s3 with
              | e :: s4 => if is_ch "}" e then quant lo (Some hi) s4 else (a, s)
              | [] => (a, s)
              end
            else (a, s)
        | [] => (a, s)
        end
      else (a, s)
  | [] => (a, s)
  end.

(** Recursive descent; [n] counts the capturing groups opened so far, which
    numbers the groups by their opening parenthesis. *)
Fixpoint parse_alt (fuel : nat) (s : str) (n : nat) : option (regex * str * nat) :=
  match fuel with
  | O => None
  | S fuel' =>
      match parse_seq fuel' s n with
      | Some (a, s1, n1) =>
          match s1 with
          | c :: s2 =>
              if is_ch "|" c then
                match parse_alt fuel' s2 n1 with
                | Some (b, s3, n2) => Some (RAlt a b, s3, n2)
                | None => None
                end
              else Some (a, s1, n1)
          | [] => Some (a, s1, n1)
          end
      | None => None
      end
  end
with parse_seq (fuel : nat) (s : str) (n : nat) : option (regex * str * nat) :=
  match fuel with
  | O => None
  | S fuel' =>
      match s with
      | [] => Some (REmpty, s, n)
      | c :: _ =>
          if is_ch ")" c || is_ch "|" c then Some (REmpty, s, n)
          else
            match parse_atom fuel' s n with
            | Some (a, s1, n1) =>
                let (a', s2) := parse_quant a s1 in
                match parse_seq fuel' s2 n1 with
                | Some (b, s3, n2) => Some (RSeq a' b, s3, n2)
                | None => None
                end
            | None => None
            end
      end
  end
with parse_atom (fuel : nat) (s : str) (n : nat) : option (regex * str * nat) :=
  match fuel with
  | O => None
  | S fuel' =>
      match s with
      | [] => None
      | c :: rest =>
          if is_ch "(" c then
            match rest with
            | q :: colon :: rest' =>
                if is_ch "?" q && is_ch ":" colon then
                  match parse_alt fuel' rest' n with
                  | Some (a, close :: s1, n1) =>
                      if is_ch ")" close then Some (a, s1, n1) else None
                  | _ => None
                  end
                else
                  match parse_alt fuel' rest (S n) with
                  | Some (a, close :: s1, n1) =>
                      if is_ch ")" close then Some (RGroup (S n) a, s1, n1) else None
                  | _ => None
                  end
            | _ => None
            end
          else if is_ch "[" c then
            match rest with
            | neg :: rest' =>
                if is_ch "^" neg then
                  match parse_set rest' with
                  | Some (items, s1) => Some (RSet true items, s1, n)
                  | None => None
                  end
                else
                  match parse_set rest with
                  | Some (items, s1) => Some (RSet false items, s1, n)
                  | None => None
                  end
            | [] => None
            end
          else if is_ch "\" c then
            match rest with
            | e :: s1 =>
                match escape_item e with
                | SRange x _ => Some (RChar x, s1, n)
                | item => Some (RSet false [item], s1, n)
                end
            | [] => None
            end
          else if is_ch "^" c then Some (RBol, rest, n)
          else if is_ch "$" c then Some (REol, rest, n)
          else if is_ch "." c then Some (RSet true [SRange 10%N 10%N], rest, n)
          else Some (RChar c, rest, n)
      end
  end.

(** [re.compile]: every pattern of the sources is well formed; a pattern
    that is not would raise at compile time and is mapped to [RFail]. *)
Definition compile (p : string) : regex :=
  let s := raw p in
  match parse_alt (4 * List.length s + 4) s 0 with
  | Some (r, [], _) => r
  | _ => RFail
  end.

Fixpoint ngroups (r : regex) : nat :=
  match r with
  | RSeq a b | RAlt a b => Nat.max (ngroups a) (ngroups b)
  | RRep _ _ _ a => ngroups a
  | RGroup i a => Nat.max i (ngroups a)
  | _ => 0
  end.

Fixpoint well_formed (r : regex) : bool :=
  match r with
  | RFail => false
  | RSeq a b | RAlt a b => well_formed a && well_formed b
  | RRep _ _ _ a | RGroup _ a => well_formed a
  | _ => true
  end.

(** *** Matching

    A backtracking matcher in continuation-passing style, with the search
    order of [re]: alternatives left to right, greedy repetitions longest
    first, lazy repetitions shortest first. *)

Record flags : Type := { ignorecase : bool; multiline : bool }.

Definition no_flags : flags := {| ignorecase := false; multiline := false |}.
Definition IGNORECASE : flags := {| ignorecase := true; multiline := false |}.
Definition IGNORECASE_MULTILINE : flags := {| ignorecase := true; multiline := true |}.

(** A position in the subject: its index, the character before it and the
    characters from it on. *)
Record cursor : Type := { c_pos : nat; c_prev : option char; c_rest : str }.

Definition start_cursor (text : str) : cursor :=
  {| c_pos := 0; c_prev := None; c_rest := text |}.

Definition advance (cur : cursor) : option (char * cursor) :=
  match c_rest cur with
  | x :: rest => Some (x, {| c_pos := S (c_pos cur); c_prev := Some x; c_rest := rest |})
  | [] => None
  end.

(** The spans of the groups that took part in the match, latest first. *)
Definition captures := list (nat * (nat * nat)).

Fixpoint lookup (i : nat) (caps : captures) : option (nat * nat) :=
  match caps with
  | (j, span) :: rest => if Nat.eqb i j then Some span else lookup i rest
  | [] => None
  end.

Definition item_has (it : set_item) (c : char) : bool :=
  match it with
  | SRange lo hi => in_range lo hi c
  | SSpace => is_space c
  | SDigit => is_digit c
  | SWord => is_word c
  end.

Definition set_has (negated : bool) (items : list set_item) (c : char) : bool :=
  xorb negated (existsb (fun it => item_has it c) items).

Definition char_matches (fl : flags) (p c : char) : bool :=
  if ignorecase fl then (lower_char p =? lower_char c)%N else (p =? c)%N.

Definition set_matches (fl : flags) (negated : bool) (items : list set_item) (c : char) : bool :=
  if ignorecase fl
  then set_has negated items (lower_char c) || set_has negated items (upper_char c)
  else set_has negated items c.

Definition at_bol (fl : flags) (cur : cursor) : bool :=
  match c_prev cur with
  | None => true
  | Some x => multiline fl && (x =? 10)%N
  end.

Definition at_eol (fl : flags) (cur : cursor) : bool :=
  match c_rest cur with
  | [] => true
  | [x] => (x =? 10)%N
  | x :: _ => multiline fl && (x =? 10)%N
  end.

Definition below (n : nat) (hi : option nat) : bool :=
  match hi with
  | Some h => Nat.ltb n h
  | None => true
  end.

Definition or_else {A : Type} (x y : option A) : option A :=
  match x with
  | Some _ => x
  | None => y
  end.

Definition cont := cursor -> captures -> option (cursor * captures).

(** [step fl r cur caps k]: match [r] at [cur], then continue with [k]; a
    failing continuation makes the matcher backtrack.  An iteration of a
    repetition has to consume a character, so a repetition iterates at most
    as often as there are characters left. *)
Fixpoint step (fl : flags) (r : regex) (cur : cursor) (caps : captures) (k : cont)
  {struct r} : option (cursor * captures) :=
  match r with
  | REmpty => k cur caps
  | RFail => None
  | RChar p =>
      match advance cur with
      | Some (x, cur') => if char_matches fl p x then k cur' caps else None
      | None => None
      end
  | RSet negated items =>
      match advance cur with
      | Some (x, cur') => if set_matches fl negated items x then k cur' caps else None
      | None => None
      end
  | RBol => if at_bol fl cur then k cur caps else None
  | REol => if at_eol fl cur then k cur caps else None
  | RSeq a b => step fl a cur caps (fun cur' caps' => step fl b cur' caps' k)
  | RAlt a b => or_else (step fl a cur caps k) (step fl b cur caps k)
  | RGroup i a =>
      step fl a cur caps (fun cur' caps' => k cur' ((i, (c_pos cur, c_pos cur')) :: caps'))
  | RRep greedy lo hi a =>
      (fix iterate (budget n : nat) (cur : cursor) (caps : captures) {struct budget}
         : option (cursor * captures) :=
         let stop := if Nat.leb lo n then k cur caps else None in
         match budget with
         | O => stop
         | S budget' =>
             let more :=
               if below n hi then
                 step fl a cur caps
                   (fun cur' caps' =>
                      if Nat.eqb (c_pos cur') (c_pos cur) then None
                      else iterate budget' (S n) cur' caps')
               else None in
             if greedy then or_else more stop else or_else stop more
         end) (List.length (c_rest cur)) 0 cur caps
  end.

(** A match object: [start()], [end()] and the group spans. *)
Record rmatch : Type := { m_start : nat; m_end : nat; m_caps : captures }.

(** One attempt at a given position; [must_advance] refuses the empty match. *)
Definition match_at (fl : flags) (r : regex) (must_advance : bool) (cur : cursor)
  : option (rmatch * cursor) :=
  match step fl r cur []
          (fun cur' caps' =>
             if must_advance && Nat.eqb (c_pos cur') (c_pos cur) then None
             else Some (cur', caps')) with
  | Some (cur', caps') =>
      Some ({| m_start := c_pos cur; m_end := c_pos cur'; m_caps := caps' |}, cur')
  | None => None
  end.

(** The leftmost match at or after a position. *)
Fixpoint scan (fl : flags) (r : regex) (must_advance : bool)
  (pos : nat) (prev : option char) (rest : str) : option (rmatch * cursor) :=
  match match_at fl r must_advance {| c_pos := pos; c_prev := prev; c_rest := rest |} with
  | Some res => Some res
  | None =>
      match rest with
      | x :: rest' => scan fl r false (S pos) (Some x) rest'
      | [] => None
      end
  end.

Definition scan_from (fl : flags) (r : regex) (must_advance : bool) (cur : cursor)
  : option (rmatch * cursor) :=
  scan fl r must_advance (c_pos cur) (c_prev cur) (c_rest cur).

(** [re.match(pattern, text, flags)] *)
Definition re_match (r : regex) (text : str) (fl : flags) : option rmatch :=
  option_map fst (match_at fl r false (start_cursor text)).

(** [re.search(pattern, text, flags)] *)
Definition re_search (r : regex) (text : str) (fl : flags) : option rmatch :=
  option_map fst (scan_from fl r false (start_cursor text)).

(** The successive non-overlapping matches, each search resuming where the
    previous match ended (and past it when that match was empty). *)
Fixpoint matches_from (fl : flags) (r : regex) (budget : nat) (must_advance : bool)
  (cur : cursor) : list rmatch :=
  match budget with
  | O => []
  | S budget' =>
      match scan_from fl r must_advance cur with
      | Some (m, cur') =>
          m :: matches_from fl r budget' (Nat.eqb (m_start m) (m_end m)) cur'
      | None => []
      end
  end.

(** [re.finditer(pattern, text, flags)] *)
Definition re_finditer (r : regex) (text : str) (fl : flags) : list rmatch :=
  matches_from fl r (2 * List.length text + 2) false (start_cursor text).

(** [match.group(i)]; [None] when the group took no part in the match. *)
Definition group (text : str) (m : rmatch) (i : nat) : option str :=
  match i with
  | O => Some (slice text (m_start m) (m_end m))
  | _ => option_map (fun span => slice text (fst span) (snd span)) (lookup i (m_caps m))
  end.

(** [match.groups()] *)
Definition groups (r : regex) (text : str) (m : rmatch) : list (option str) :=
  map (group text m) (seq 1 (ngroups r)).

(** [re.findall(pattern, text, flags)] for a pattern with at most one group:
    the texts of group 1 (of the whole match when there is no group), with
    [''] for a group that took no part. *)
Definition re_findall (r : regex) (text : str) (fl : flags) : list str :=
  map (fun m => match group text m (Nat.min 1 (ngroups r)) with
                | Some s => s
                | None => []
                end)
      (re_finditer r text fl).

(** [re.sub(pattern, '', text)]: the text without its matches. *)
Fixpoint remove_spans (pos : nat) (ms : list rmatch) (text : str) : str :=
  match ms with
  | [] => skipn pos text
  | m :: ms' => slice text pos (m_start m) ++ remove_spans (m_end m) ms' text
  end.

Definition re_sub_empty (r : regex) (text : str) : str :=
  remove_spans 0 (re_finditer r text no_flags) text.

End Re.

(** ** Exceptions *)

(** An exception: its class and its message, [str(e)]. *)
Record exn : Type := Exn { exn_class : string; exn_message : str }.

Inductive result (A : Type) : Type :=
| Return (a : A)
| Raise (e : exn).

Arguments Return {A} a.
Arguments Raise {A} e.

Definition bind {A B : Type} (x : result A) (f : A -> result B) : result B :=
  match x with
  | Return a => f a
  | Raise e => Raise e
  end.

Notation "x <- c ;; k" := (bind c (fun x => k))
  (at level 61, c at next level, right associativity).

Definition ValueError (message : str) : exn := Exn "ValueError" message.
Definition AttributeError (message : str) : exn := Exn "AttributeError" message.

(** ** Numbers *)

Definition digit_value (c : char) : Z := Z.of_N (c - 48).

(** The number a digit string denotes, read left to right. *)
Definition digits_value (ds : str) : Z :=
  fold_left (fun acc c => (10 * acc + digit_value c)%Z) ds 0%Z.

(** [str(n)] for a natural number. *)
Fixpoint digits_of (budget : nat) (n : N) (acc : str) : str :=
  match budget with
  | O => acc
  | S budget' =>
      let acc' := (48 + n mod 10)%N :: acc in
      if (n <? 10)%N then acc' else digits_of budget' (n / 10)%N acc'
  end.

Definition str_of_nat (n : nat) : str := digits_of (S n) (N.of_nat n) [].

(** [sys.get_int_max_str_digits()], as CPython sets it by default. *)
Definition int_max_str_digits : nat := 4300.

(** [int(s)] on the strings the sources pass to it, which are matches of
    [\d+]: a non-empty digit string is its number, unless it has more
    digits than the limit; anything else raises. *)
Definition int_of_str (s : str) : result Z :=
  if isdigit s then
    if Nat.ltb int_max_str_digits (List.length s)
    then Raise (ValueError
                  (py "Exceeds the limit (4300 digits) for integer string conversion: value has "
                   ++ str_of_nat (List.length s)
                   ++ py " digits; use sys.set_int_max_str_digits() to increase the limit"))
    else Return (digits_value s)
  else Raise (ValueError (py "invalid literal for int() with base 10: '" ++ s ++ py "'")).

(** The cut of a numeral at its first decimal point. *)
Fixpoint cut_point (s : str) : str * option str :=
  match s with
  | [] => ([], None)
  | c :: rest =>
      if (c =? 46)%N then ([], Some rest)
      else let (whole, frac) := cut_point rest in (c :: whole, frac)
  end.

Definition Qltb (x y : Q) : bool := negb (Qle_bool y x).

(** *** binary64 *)

(** [2 ^ e] for an exponent of either sign. *)
Definition pow2 (e : Z) : Q :=
  if (0 <=? e)%Z then inject_Z (2 ^ e) else (1 # Z.to_pos (2 ^ (- e)))%Q.

(** The exponent [e] with [2 ^ e <= n / d < 2 ^ (e + 1)], for positive [n]
    and [d]. *)
Definition log2_floor (n d : Z) : Z :=
  let e0 := (Z.log2 n - Z.log2 d)%Z in
  if (d * 2 ^ Z.max e0 0 <=? n * 2 ^ Z.max (- e0) 0)%Z then e0 else (e0 - 1)%Z.

(** The integer nearest to [n / d], the even one of two that are equally
    near. *)
Definition div_nearest_even (n d : Z) : Z :=
  let m := (n / d)%Z in
  let r := (n mod d)%Z in
  if (2 * r <? d)%Z then m
  else if (d <? 2 * r)%Z then (m + 1)%Z
  else if Z.even m then m else (m + 1)%Z.

(** The binary64 number nearest to a rational that is not negative, ties to
    even, with no bound on the exponent above: 53 bits of precision, and the
    fixed spacing [2 ^ -1074] of the subnormal numbers below [2 ^ -1022]. *)
Definition fl (q : Q) : Q :=
  let n := Qnum (Qred q) in
  let d := Zpos (Qden (Qred q)) in
  if (n <=? 0)%Z then 0%Q
  else
    let x := Z.max (log2_floor n d - 52) (-1074) in
    let m := div_nearest_even (n * 2 ^ Z.max (- x) 0) (d * 2 ^ Z.max x 0) in
    Qred (inject_Z m * pow2 x)%Q.

(** A [float] that can be infinite. *)
Inductive pyfloat : Type :=
| Finite (q : Q)
| Infinity.

(** Rounding to binary64 with overflow: what rounds to [2 ^ 1024] or more
    is [inf]. *)
Definition round64 (q : Q) : pyfloat :=
  if Qle_bool (inject_Z (2 ^ 1024)) (fl q) then Infinity else Finite (fl q).

(** [x < bound] for a finite [bound]. *)
Definition float_ltb (x : pyfloat) (bound : Q) : bool :=
  match x with
  | Finite q => Qltb q bound
  | Infinity => false
  end.

Definition OverflowError (message : str) : exn := Exn "OverflowError" message.

(** The conversion of an [int] operand of a [float] operation. *)
Definition float_of_int (n : Z) : result Q :=
  match round64 (inject_Z n) with
  | Finite q => Return q
  | Infinity => Raise (OverflowError (py "int too large to convert to float"))
  end.

(** [float(len(s))]: a length is below [2 ^ 63]. *)
Definition float_of_len (n : nat) : Q := fl (inject_Z (Z.of_nat n)).

(** [float(s)] on the strings the sources pass to it, which are matches of
    [[0-9,]+\.?\d{0,2}] without their commas: digits, an optional point,
    digits, with a digit somewhere, read as the nearest binary64 number;
    anything else raises [ValueError]. *)
Definition float_of_str (s : str) : result pyfloat :=
  let (whole, frac) := cut_point s in
  let fraction := match frac with Some f => f | None => [] end in
  if forallb is_digit (whole ++ fraction) && negb (str_eqb (whole ++ fraction) [])
  then Return (round64 (inject_Z (digits_value (whole ++ fraction))
                        / inject_Z (10 ^ Z.of_nat (List.length fraction)))%Q)
  else Raise (ValueError (py "could not convert string to float: '" ++ s ++ py "'")).

(** ** The result records *)

Record LineItem : Type := {
  name : str;
  quantity : Z;
  unit_price : pyfloat;
  total_price : pyfloat
}.

Record ExtractionResult : Type := {
  vendor : option str;
  amount : option pyfloat;
  date : option str;
  category : str;
  line_items : list LineItem;
  raw_text : str;
  success : bool;
  error : option str
}.

(** The group of a match that every match of the pattern has. *)
Definition group_str (text : str) (m : Re.rmatch) (i : nat) : str :=
  match Re.group text m i with
  | Some s => s
  | None => []
  end.

(** The first hit of a loop that returns from inside its body. *)
Fixpoint first_some {A B : Type} (f : A -> option B) (l : list A) : option B :=
  match l with
  | [] => None
  | x :: rest => Re.or_else (f x) (first_some f rest)
  end.

Fixpoint filter_map {A B : Type} (f : A -> option B) (l : list A) : list B :=
  match l with
  | [] => []
  | x :: rest =>
      match f x with
      | Some y => y :: filter_map f rest
      | None => filter_map f rest
      end
  end.

(** [sum(1 for c in s if c.isupper())] *)
Definition count_upper (s : str) : nat := List.length (filter is_upper s).

(** ** ocr_processor.py *)

Module OcrProcessor.

Definition vendor_patterns : list Re.regex := map Re.compile [
  "recipient details\s+([A-Z][A-Z\s&.-]+(?:LTD|LIMITED|INC|COMPANY|CORP|PLC)?)";
  "merchant[:\s]+([A-Z][A-Z\s&.-]+(?:LTD|LIMITED|INC|COMPANY|CORP|PLC)?)";
  "payee[:\s]+([A-Z][A-Z\s&.-]+(?:LTD|LIMITED|INC|COMPANY|CORP|PLC)?)";
  "([A-Z][A-Z\s&.-]+(?:LTD|LIMITED|INC|COMPANY|CORP|PLC))"
].

(** The body of the loop over the matches of a vendor pattern. *)
Definition vendor_of_match (text : str) (m : Re.rmatch) : option str :=
  let vendor := strip (group_str text m 1) in
  let vendor := strip (hd [] (split_char 10%N vendor)) in
  if Nat.ltb 3 (List.length vendor) && negb (contains (py "bank") (lower vendor))
  then Some vendor
  else None.

Definition vendor_skip_words : list str :=
  map py ["transaction"; "receipt"; "successful"; "opay"; "@"; "nov "; "session"; "enjoy"].

Definition clean_special : Re.regex := Re.compile "[^\w\s&.-]".

(** The fallback over the lines that look like company names. *)
Definition uppercase_line (line : str) : option str :=
  if any_in vendor_skip_words (lower line) then None
  else if Nat.ltb 3 (List.length line)
          && Qltb (fl (float_of_len (List.length line) * fl (6 # 10)))%Q
                  (inject_Z (Z.of_nat (count_upper line)))
  then Some (strip (Re.re_sub_empty clean_special line))
  else None.

(** The last resort: the first meaningful line. *)
Definition meaningful_line (line : str) : option str :=
  if Nat.ltb 3 (List.length line)
     && negb (any_in (map py ["@"; "transaction"; "receipt"]) (lower line))
  then Some (strip (Re.re_sub_empty clean_special line))
  else None.

Definition extract_vendor (text : str) : option str :=
  let lines := stripped_lines text in
  Re.or_else
    (first_some
       (fun pattern =>
          first_some (vendor_of_match text) (Re.re_finditer pattern text Re.IGNORECASE_MULTILINE))
       vendor_patterns)
    (Re.or_else (first_some uppercase_line lines) (first_some meaningful_line lines)).

Definition amount_patterns : list Re.regex := map Re.compile [
  "₦\s*([0-9,]+\.?\d{0,2})";
  "([0-9,]+\.?\d{0,2})\s*naira";
  "total[:\s]*₦?\s*([0-9,]+\.?\d{0,2})";
  "amount[:\s]*₦?\s*([0-9,]+\.?\d{0,2})";
  "\$\s*([0-9,]+\.?\d{0,2})";
  "([0-9,]+\.?\d{0,2})\s*USD";
  "total[:\s]*\$?\s*([0-9,]+\.?\d{0,2})";
  "amount[:\s]*\$?\s*([0-9,]+\.?\d{0,2})";
  "^([0-9]{1,3}(?:,[0-9]{3})*\.?[0-9]{0,2})$";
  "\n([0-9]{1,3}(?:,[0-9]{3})*\.?[0-9]{0,2})\n"
].

(** [match.start() / len(text)] *)
Definition position_of (text : str) (m : Re.rmatch) : Q :=
  fl (inject_Z (Z.of_nat (Re.m_start m)) / inject_Z (Z.of_nat (List.length text)))%Q.

(** The body of the loop over the matches of an amount pattern: the
    candidate of a match, or nothing when [float] raises [ValueError] or the
    amount is taken for an identifier, as every amount above 1000000 is,
    [inf] included; a candidate is finite. *)
Definition candidate_of_match (text : str) (m : Re.rmatch) : option (Q * Q) :=
  let amount_str := remove_char (ch ",") (group_str text m 1) in
  match float_of_str amount_str with
  | Raise _ => None
  | Return Infinity => None
  | Return (Finite amount) =>
      if Qltb 1000000%Q amount then None
      else Some (amount, position_of text m)
  end.

Definition amounts (text : str) : list (Q * Q) :=
  flat_map
    (fun pattern =>
       filter_map (candidate_of_match text) (Re.re_finditer pattern text Re.IGNORECASE_MULTILINE))
    amount_patterns.

Definition significant_amounts (text : str) : list (Q * Q) :=
  filter (fun c => Qle_bool (1 # 2)%Q (fst c)) (amounts text).

Definition final_keywords : list str := map py ["total"; "due"; "amount due"; "pay"].

(** [text[max(0, int(pos * len(text)) - 50):int(pos * len(text)) + 50].lower()] *)
Definition text_around (text : str) (pos : Q) : str :=
  let i := Qfloor (fl (pos * float_of_len (List.length text)))%Q in
  lower (slice text (Z.to_nat (Z.max 0 (i - 50))) (Z.to_nat (i + 50))).

Definition has_final_context (text : str) (pos : Q) : bool :=
  any_in final_keywords (text_around text pos).

(** [min(amt, 1000)] *)
Definition size_score (amt : Q) : Q := if Qltb 1000%Q amt then 1000%Q else amt.

Definition final_score (text : str) (c : Q * Q) : Q :=
  let (amt, pos) := c in
  let position_score := fl (pos * 100)%Q in
  let position_score :=
    if has_final_context text pos then fl (position_score + 50)%Q else position_score in
  fl (position_score + size_score amt)%Q.

Definition scored := (Q * Q * Q)%type.

Definition score_of (x : scored) : Q := snd x.

Definition final_amounts (text : str) : list scored :=
  map (fun c => (fst c, snd c, final_score text c)) (significant_amounts text).

(** [l.sort(key=lambda x: x[2], reverse=True)]: the sort is stable, also
    when reversed, so it is the insertion of each element before the first
    element that does not have a greater score. *)
Fixpoint insert_desc (x : scored) (l : list scored) : list scored :=
  match l with
  | [] => [x]
  | y :: rest =>
      if Qltb (score_of x) (score_of y) then y :: insert_desc x rest
      else x :: l
  end.

Definition sort_desc (l : list scored) : list scored := fold_right insert_desc [] l.

Definition extract_amount (text : str) : option pyfloat :=
  match amounts text with
  | [] => None
  | first :: _ =>
      match significant_amounts text with
      | [] => Some (Finite (fst first))
      | _ :: _ =>
          match sort_desc (final_amounts text) with
          | top :: _ => Some (Finite (fst (fst top)))
          | [] => None
          end
      end
  end.

Definition date_patterns : list Re.regex := map Re.compile [
  "(Nov\s+\d{1,2}(?:st|nd|rd|th)?,?\s+\d{4}\s+\d{1,2}:\d{2}:\d{2})";
  "(Nov\s+\d{1,2}(?:st|nd|rd|th)?,?\s+\d{4})";
  "(\d{1,2}[-/]\d{1,2}[-/]\d{2,4})";
  "(\d{1,2}\s+(?:Jan|Feb|Mar|Apr|May|Jun|Jul|Aug|Sep|Oct|Nov|Dec)[a-z]*\s+\d{2,4})";
  "((?:Jan|Feb|Mar|Apr|May|Jun|Jul|Aug|Sep|Oct|Nov|Dec)[a-z]*\s+\d{1,2}(?:st|nd|rd|th)?,?\s+\d{2,4})";
  "(\d{4}-\d{1,2}-\d{1,2})";
  "(\d{2}/\d{2}/\d{4})"
].

Definition extract_date (text : str) : option str :=
  first_some
    (fun pattern =>
       match Re.re_search pattern text Re.IGNORECASE with
       | Some m =>
           let date_str :=
             if Nat.ltb 0 (List.length (Re.groups pattern text m))
             then group_str text m 1 else group_str text m 0 in
           Some (strip date_str)
       | None => None
       end)
    date_patterns.

(** The category table, in the order of the dictionary. *)
Definition categories : list (str * list str) :=
  map (fun entry => (py (fst entry), map py (snd entry))) [
    ("financial", ["opay"; "bank"; "transfer"; "payment"; "transaction"; "mobile money"; "fintech"]);
    ("electronics", ["electro"; "galactica"; "electronics"; "computer"; "tech"; "gadget"]);
    ("technology", ["hosting"; "domain"; "server"; "cloud"; "software"; "saas"; "railway"; "vercel"; "netlify"; "aws"; "invoice"]);
    ("business", ["company ltd"; "limited"; "corporation"; "enterprise"; "services"; "consultant"]);
    ("groceries", ["grocery"; "supermarket"; "food"; "market"; "shoprite"; "spar"; "provision"]);
    ("restaurant", ["restaurant"; "cafe"; "pizza"; "dining"; "bar"; "grill"; "kitchen"; "eatery"]);
    ("fuel", ["gas"; "fuel"; "petrol"; "filling station"; "total"; "mobil"; "oando"]);
    ("retail", ["store"; "shop"; "mall"; "boutique"; "clothing"; "fashion"]);
    ("pharmacy", ["pharmacy"; "medical"; "drug"; "health"; "hospital"; "clinic"]);
    ("transportation", ["uber"; "bolt"; "taxi"; "bus"; "transport"; "travel"]);
    ("utilities", ["electric"; "water"; "nepa"; "internet"; "phone"; "utility"; "telecom"; "mtn"; "airtel"]);
    ("education", ["school"; "university"; "education"; "training"; "course"])
  ].

(** [vendor or ''] *)
Definition or_empty (vendor : option str) : str :=
  match vendor with
  | Some v => v
  | None => []
  end.

(** The first category one of whose keywords occurs in the content. *)
Definition first_category (table : list (str * list str)) (content : str) : option str :=
  first_some (fun entry => if any_in (snd entry) content then Some (fst entry) else None) table.

Definition classify_category (vendor : option str) (text : str) : str :=
  let content := lower (or_empty vendor ++ py " " ++ text) in
  match first_category categories content with
  | Some category => category
  | None => py "other"
  end.

Definition line_patterns : list Re.regex := map Re.compile [
  "^([A-Za-z][A-Za-z\s\.,&-]+?)\s+(Pcs?|REGULAR)\s+(\d+)\s+([0-9,]+\.?\d{0,2})$";
  "^([A-Za-z][A-Za-z\s\.,&-]+?)\s+([0-9,]+\.?\d{0,2})$";
  "^([A-Za-z][A-Za-z\s\.,&-]+?)\s+(?:Pcs?|REGULAR|x)?\s*(\d+)?\s*x?\s*([0-9,]+\.?\d{0,2})$"
].

Definition line_skip_words : list str :=
  map py ["item name"; "subtotal"; "total"; "discount"; "settled"; "thank you"; "receipt"; "===="].

(** A method call on a group: [None] has no methods. *)
Definition method (attr : string) (g : option str) : result str :=
  match g with
  | Some s => Return s
  | None =>
      Raise (AttributeError (py "'NoneType' object has no attribute '" ++ py attr ++ py "'"))
  end.

(** [int(g)] on a group. *)
Definition int_of_group (g : option str) : result Z :=
  match g with
  | Some s => int_of_str s
  | None =>
      Raise (Exn "TypeError"
               (py "int() argument must be a string, a bytes-like object or a real number, not 'NoneType'"))
  end.

(** [float(g.replace(',', ''))] on a group. *)
Definition price_of_group (g : option str) : result pyfloat :=
  s <- method "replace" g ;;
  float_of_str (remove_char (ch ",") s).

(** [total_price / quantity if quantity > 0 else total_price]: the
    quantity is converted to a [float], which raises when it is too large,
    and divides the total. *)
Definition unit_price_of (total_price : pyfloat) (quantity : Z) : result pyfloat :=
  if (0 <? quantity)%Z then
    divisor <- float_of_int quantity ;;
    Return (match total_price with
            | Finite total => round64 (total / divisor)%Q
            | Infinity => Infinity
            end)
  else Return total_price.

(** The fields read off the groups of a match, by the number of groups;
    [None] for a number of groups that is neither 4, 3 nor 2. *)
Definition fields_of_groups (groups : list (option str))
  : result (option (option str * Z * pyfloat * pyfloat)) :=
  match groups with
  | [name; unit_type; qty; price] =>
      quantity <- int_of_group qty ;;
      total_price <- price_of_group price ;;
      unit_price <- unit_price_of total_price quantity ;;
      Return (Some (name, quantity, unit_price, total_price))
  | [name; qty_or_price; price_or_empty] =>
      if match qty_or_price with
         | Some s => negb (str_eqb s []) && isdigit s
         | None => false
         end
      then
        quantity <- int_of_group qty_or_price ;;
        total_price <- price_of_group price_or_empty ;;
        unit_price <- unit_price_of total_price quantity ;;
        Return (Some (name, quantity, unit_price, total_price))
      else
        total_price <- price_of_group qty_or_price ;;
        Return (Some (name, 1%Z, total_price, total_price))
  | [name; price] =>
      total_price <- price_of_group price ;;
      Return (Some (name, 1%Z, total_price, total_price))
  | _ => Return None
  end.

(** The loop over the patterns for one line: the item the line yields, if
    any.  A match whose total is below 10 continues with the next pattern; a
    match that yields an item ends the loop. *)
Fixpoint item_of_line (patterns : list Re.regex) (line : str) : result (option LineItem) :=
  match patterns with
  | [] => Return None
  | pattern :: rest =>
      match Re.re_match pattern (strip line) Re.IGNORECASE with
      | None => item_of_line rest line
      | Some m =>
          fields <- fields_of_groups (Re.groups pattern (strip line) m) ;;
          match fields with
          | None => item_of_line rest line
          | Some (name, quantity, unit_price, total_price) =>
              name <- method "strip" name ;;
              let name := title (strip name) in
              if float_ltb total_price 10%Q then item_of_line rest line
              else Return (Some {| name := name; quantity := quantity;
                                   unit_price := unit_price; total_price := total_price |})
          end
      end
  end.

(** The lines that are skipped: headers and totals, very short lines and
    lines without a digit. *)
Definition skipped_line (line : str) : bool :=
  any_in line_skip_words (lower line)
  || Nat.ltb (List.length line) 5 || negb (existsb is_digit line).

Fixpoint items_of_lines (lines : list str) : result (list LineItem) :=
  match lines with
  | [] => Return []
  | line :: rest =>
      if skipped_line line then items_of_lines rest
      else
        found <- item_of_line line_patterns line ;;
        items <- items_of_lines rest ;;
        Return (match found with
                | Some item => item :: items
                | None => items
                end)
  end.

Definition extract_line_items (text : str) : result (list LineItem) :=
  items_of_lines (stripped_lines text).

(** The result of a run that extracted nothing. *)
Definition failure (text : str) (message : str) : ExtractionResult :=
  {| vendor := None; amount := None; date := None; category := py "other";
     line_items := []; raw_text := text; success := false; error := Some message |}.

(** The body of the [try] of [process_receipt], from the text that
    [extract_text] returned on. *)
Definition process_text (text : str) : result ExtractionResult :=
  if str_eqb text [] || Nat.ltb (List.length (strip text)) 10
  then Return (failure text (py "Could not extract meaningful text from image"))
  else
    let vendor := extract_vendor text in
    let amount := extract_amount text in
    let date := extract_date text in
    let category := classify_category vendor text in
    line_items <- extract_line_items text ;;
    Return {| vendor := vendor; amount := amount; date := date; category := category;
              line_items := line_items; raw_text := text; success := true; error := None |}.

(** [process_receipt], with its [except Exception as e] handler. *)
Definition process_receipt (text : str) : ExtractionResult :=
  match process_text text with
  | Return r => r
  | Raise e => failure [] (exn_message e)
  end.

End OcrProcessor.

(** ** simple_ocr.py *)

Module SimpleOcr.

Definition recipient_patterns : list Re.regex := map Re.compile [
  "recipient\s+details\s+([A-Z][A-Z\s&.-]+(?:LTD|LIMITED|INC|COMPANY|CORP|PLC))";
  "([A-Z][A-Za-z\s&.-]+(?:STORES?|SHOPPING|COMMUNICATIONS?|BANK|NIGERIA)(?:\s+(?:LIMITED|LTD|PLC))?)"
].

Definition vendor_patterns : list Re.regex := map Re.compile [
  "([A-Z][A-Za-z\s&.-]+(?:Corporation|Corp|Ltd|Limited|Inc|Company|LLC|PLC))";
  "(Railway\s+Corporation)";
  "([A-Z][A-Z\s]{2,20}(?:LTD|LIMITED|INC|COMPANY|CORP|PLC))"
].

(** The body of the loop over the lines that looks for the recipient label. *)
Definition recipient_of_line (line : str) : option str :=
  if contains (py "recipient details") (lower line) then
    match split_once (py "Details") line with
    | _ :: after :: _ =>
        let vendor := strip after in
        if Nat.ltb 3 (List.length vendor) then Some vendor else None
    | _ => None
    end
  else None.

Definition recipient_of_match (vendor : str) : option str :=
  let vendor := strip vendor in
  if Nat.ltb 3 (List.length vendor) then Some vendor else None.

Definition company_of_match (vendor : str) : option str :=
  let vendor := strip vendor in
  if Nat.ltb 3 (List.length vendor) && negb (contains (py "bank") (lower vendor))
  then Some vendor
  else None.

(** The body of the loop over the first five lines. *)
Definition uppercase_line (line : str) : option str :=
  if any_in (map py ["invoice"; "receipt"; "transaction"; "date"; "bill to"; "@"]) (lower line)
  then None
  else if Nat.ltb 3 (List.length line) && Nat.ltb (List.length line) 50 then
    let uppercase_ratio :=
      fl (inject_Z (Z.of_nat (count_upper line))
          / inject_Z (Z.of_nat (List.length (remove_char (ch " ") line))))%Q in
    if Qltb (1 # 2)%Q uppercase_ratio then Some (strip line) else None
  else None.

Definition extract_vendor (text : str) : option str :=
  let lines := stripped_lines text in
  let text_lower := lower text in
  if contains (py "railway corporation") text_lower then Some (py "Railway Corporation")
  else if contains (py "electro galactica") text_lower
  then Some (py "Electro Galactica Company LTD")
  else
    Re.or_else (first_some recipient_of_line lines)
   (Re.or_else
      (first_some
         (fun pattern => first_some recipient_of_match (Re.re_findall pattern text Re.IGNORECASE))
         recipient_patterns)
      (if any_in (map py ["opay"; "pay transaction"; "#"]) text_lower
          && contains (py "recipient") text_lower
       then Some (py "OPay")
       else
         Re.or_else
           (first_some
              (fun pattern =>
                 first_some company_of_match (Re.re_findall pattern text Re.IGNORECASE))
              vendor_patterns)
           (first_some uppercase_line (firstn 5 lines)))).

Definition amount_patterns : list Re.regex := map Re.compile [
  "Amount\s+due\s+\$([0-9,]+\.?\d{0,2})\s*USD";
  "\$([0-9,]+\.?\d{0,2})\s*USD\s+due";
  "Total\s+\$([0-9,]+\.?\d{0,2})";
  "Amount\s+due\s+\$([0-9,]+\.?\d{0,2})";
  "₦\s*([0-9,]+\.?\d{0,2})";
  "#([0-9,]+\.?\d{0,2})";
  "#([0-9,]+)";
  "([0-9,]+\.?\d{0,2})\s*naira";
  "total[:\s]*\$?([0-9,]+\.?\d{0,2})";
  "amount[:\s]*\$?([0-9,]+\.?\d{0,2})"
].

(** The body of the loop over the matches of an amount pattern: the amount
    of a match, or nothing when [float] raises [ValueError] or the amount is
    out of range, as [inf] is; an amount that is kept is finite. *)
Definition amount_of_match (found : str) : option Q :=
  let amount_str := remove_char (ch ",") found in
  match float_of_str amount_str with
  | Raise _ => None
  | Return Infinity => None
  | Return (Finite amount) =>
      if Qle_bool (fl (1 # 100)) amount && Qle_bool amount 10000000%Q then Some amount
      else None
  end.

Definition amounts_found (text : str) : list Q :=
  flat_map
    (fun pattern => filter_map amount_of_match (Re.re_findall pattern text Re.IGNORECASE))
    amount_patterns.

(** [max(l)] of a non-empty list: its first greatest element. *)
Definition max_of (first : Q) (rest : list Q) : Q :=
  fold_left (fun best x => if Qltb best x then x else best) rest first.

Definition extract_amount (text : str) : option pyfloat :=
  match amounts_found text with
  | [] => None
  | first :: rest => Some (Finite (max_of first rest))
  end.

Definition date_patterns : list Re.regex := map Re.compile [
  "((?:January|February|March|April|May|June|July|August|September|October|November|December)\s+\d{1,2},?\s+\d{4})";
  "((?:Jan|Feb|Mar|Apr|May|Jun|Jul|Aug|Sep|Oct|Nov|Dec)-?\d{1,2}(?:st|nd|rd|th)?,?\s+\d{4}\s+\d{1,2}:\d{2}:\d{2})";
  "((?:Jan|Feb|Mar|Apr|May|Jun|Jul|Aug|Sep|Oct|Nov|Dec)\s+\d{1,2}(?:st|nd|rd|th),?\s+\d{4})";
  "((?:Jan|Feb|Mar|Apr|May|Jun|Jul|Aug|Sep|Oct|Nov|Dec)\s*-?\d{1,2}(?:st|nd|rd|th)?,?\s+\d{4})";
  "(\d{1,2}[-/]\d{1,2}[-/]\d{2,4})";
  "(\d{4}-\d{1,2}-\d{1,2})"
].

Definition extract_date (text : str) : option str :=
  first_some
    (fun pattern =>
       match Re.re_search pattern text Re.IGNORECASE with
       | Some m => Some (strip (group_str text m 1))
       | None => None
       end)
    date_patterns.

Definition table (entries : list (string * list string)) : list (str * list str) :=
  map (fun entry => (py (fst entry), map py (snd entry))) entries.

Definition vendor_categories : list (str * list str) := table [
  ("technology", ["railway"; "hosting"; "domain"; "server"; "cloud"; "software"; "railway corporation"]);
  ("electronics", ["electro"; "galactica"; "electronics"; "computer"; "tech"]);
  ("groceries", ["shoprite"; "grocery"; "supermarket"; "food"; "market"; "stores"]);
  ("retail", ["konga"; "jumia"; "amazon"; "shop"; "mall"; "boutique"; "shopping"; "online shopping"]);
  ("utilities", ["mtn"; "airtel"; "glo"; "communications"; "telecom"; "electric"; "water"; "internet"; "phone"]);
  ("financial", ["bank"; "first bank"; "access bank"; "gtbank"; "zenith bank"]);
  ("restaurant", ["restaurant"; "cafe"; "dining"; "bar"; "kfc"; "dominos"]);
  ("fuel", ["gas"; "fuel"; "petrol"; "filling station"; "mobil"; "total"; "oando"]);
  ("transportation", ["uber"; "bolt"; "taxi"; "transport"; "airline"])
].

Definition general_categories : list (str * list str) := table [
  ("financial", ["opay"; "mobile money"; "wallet"; "payment app"]);
  ("personal", ["opay | 7"; "opay | 8"; "opay | 9"]);
  ("business", ["company ltd"; "limited"; "corporation"; "enterprise"])
].

Definition company_indicators : list str :=
  map py ["ltd"; "limited"; "inc"; "corp"; "company"; "plc"; "stores"; "bank"; "communications"].

(** The test for a personal transfer: a vendor of two words or more that
    carries no company indicator. *)
Definition looks_personal (vendor : option str) : bool :=
  match vendor with
  | Some v =>
      negb (str_eqb v []) && Nat.leb 2 (List.length (split_ws v))
      && negb (any_in company_indicators (lower v))
  | None => false
  end.

Definition classify_category (vendor : option str) (text : str) : str :=
  let vendor_lower := lower (OcrProcessor.or_empty vendor) in
  let text_lower := lower text in
  match OcrProcessor.first_category vendor_categories vendor_lower with
  | Some category => category
  | None =>
      if looks_personal vendor then py "personal"
      else
        match OcrProcessor.first_category general_categories text_lower with
        | Some category => category
        | None => py "other"
        end
  end.

(** The body of the [try] of [process_receipt], from the text read from
    the file on. *)
Definition process_text (text : str) : result ExtractionResult :=
  if str_eqb text [] || Nat.ltb (List.length (strip text)) 10
  then Return (OcrProcessor.failure text (py "Could not extract meaningful text from file"))
  else
    let vendor := extract_vendor text in
    let amount := extract_amount text in
    let date := extract_date text in
    let category := classify_category vendor text in
    Return {| vendor := vendor; amount := amount; date := date; category := category;
              line_items := []; raw_text := text; success := true; error := None |}.

(** [process_receipt], with its [except Exception as e] handler. *)
Definition process_receipt (text : str) : ExtractionResult :=
  match process_text text with
  | Return r => r
  | Raise e => OcrProcessor.failure [] (exn_message e)
  end.

End SimpleOcr.

(** * Vocabulary of the properties *)

(** The texts of the scenarios. *)
Definition scenario_1 : str := py "TOTAL: $12.34\nBig Store LTD\n2024-12-31".


Definition opay_receipt : str :=
  py "Paid with opay\nRecipient Details John Smith\n₦7,000.00".

Definition two_items : str := py "Big Pack Pcs 2 800.00\nSweet Pcs 2 5.00\nBread 300.00".

(** Two candidates whose scores are equal in exact arithmetic, 56 at the
    start and 1 at 11 of 20: in binary64, [11 / 20 * 100] is above 55. *)
Definition close_scores : str := py "₦56.00xxxxx₦1.00xxxx".

(** A candidate at 11 of 69 with [due] at 58: [int(11 / 69 * 69)] is 10, and
    the text around the candidate ends at 60, in the middle of [due]. *)
Definition cut_keyword : str :=
  py "$80.00xxxxx$50.00xxxxxxxxxxxxxxxxxxxxxxxxxxxxxxxxxxxxxxxxxduexxxxxxxx".

(** [at_least bound x]: the float [x] is [bound] or more. *)
Definition at_least (bound : Q) (x : pyfloat) : Prop :=
  match x with
  | Finite q => (bound <= q)%Q
  | Infinity => True
  end.

(** [in_line_order lines items]: the items come from lines of [lines] that
    are not skipped, one item per line at most, in the order of the lines. *)
Inductive in_line_order : list str -> list LineItem -> Prop :=
| order_done : in_line_order [] []
| order_skip (line : str) (lines : list str) (items : list LineItem) :
    in_line_order lines items -> in_line_order (line :: lines) items
| order_take (line : str) (lines : list str) (item : LineItem) (items : list LineItem) :
    OcrProcessor.skipped_line line = false ->
    OcrProcessor.item_of_line OcrProcessor.line_patterns line = Return (Some item) ->
    in_line_order lines items -> in_line_order (line :: lines) (item :: items).




(** The patterns of the two modules. *)
Definition all_patterns : list Re.regex :=
  OcrProcessor.vendor_patterns ++ [OcrProcessor.clean_special]
  ++ OcrProcessor.amount_patterns ++ OcrProcessor.date_patterns
  ++ OcrProcessor.line_patterns
  ++ SimpleOcr.recipient_patterns ++ SimpleOcr.vendor_patterns
  ++ SimpleOcr.amount_patterns ++ SimpleOcr.date_patterns.

(** A string with no white space at its start. *)
Definition starts_clean (s : str) : Prop :=
  match s with
  | [] => True
  | c :: _ => is_space c = false
  end.

(** A string with no white space at either end. *)
Definition trimmed (s : str) : Prop := starts_clean s /\ starts_clean (rev s).

(** Three amounts that simple_ocr.py reads, the greatest in the middle. *)
Definition two_totals : str := py "Total $5.00\n#7,000.00\nAmount: 12".

(** Three lines, none of them meaningful to the vendor extractor. *)
Definition no_vendor : str := py "abc\n12 @ 34\nreceipt no 5".

(** * Properties *)

(** Every pattern of the two modules parses. *)
Lemma patterns_compile : forallb Re.well_formed all_patterns = true.
Proof. vm_compute. reflexivity. Qed.

(** ** Substrings *)

Lemma startswith_spec (p s : str) :
  startswith p s = true <-> exists rest, s = p ++ rest.
Proof.
  revert s; induction p as [|a p IH]; intros s; simpl.
  - split; [intros _; now exists s | reflexivity].
  - destruct s as [|b s].
    + split; [discriminate | intros [rest H]; discriminate].
    + rewrite andb_true_iff, N.eqb_eq, IH. split.
      * intros [-> [rest ->]]. now exists rest.
      * intros [rest H]. injection H as -> ->. split; [reflexivity | now exists rest].
Qed.

Lemma contains_spec (p s : str) :
  contains p s = true <-> exists before after, s = before ++ p ++ after.
Proof.
  induction s as [|x s IH].
  - simpl. rewrite orb_false_r, startswith_spec. split.
    + intros [rest H]. now exists [], rest.
    + intros [before [after H]]. destruct before as [|b before]; [|discriminate].
      now exists after.
  - cbn [contains]. rewrite orb_true_iff, startswith_spec, IH. split.
    + intros [[rest H] | [before [after H]]].
      * now exists [], rest.
      * exists (x :: before), after. now rewrite H.
    + intros [[|b before] [after H]].
      * left. now exists after.
      * right. injection H as -> ->. now exists before, after.
Qed.

Lemma contains_app_r (p a s : str) : contains p s = true -> contains p (a ++ s) = true.
Proof.
  rewrite !contains_spec. intros [before [after ->]].
  exists (a ++ before), after. now rewrite app_assoc.
Qed.

Lemma lower_app (a b : str) : lower (a ++ b) = lower a ++ lower b.
Proof. apply map_app. Qed.

(** A lower-case word that occurs in a text occurs in its lower-cased form. *)
Lemma contains_lower (p s : str) :
  lower p = p -> contains p s = true -> contains p (lower s) = true.
Proof.
  intros Hp. rewrite !contains_spec. intros [before [after ->]].
  exists (lower before), (lower after). now rewrite !lower_app, Hp.
Qed.

(** ** The orchestrator *)

(** C2: a text that is empty or whose trimmed length is below 10 yields the
    failure result: no vendor, amount or date, category ["other"], no line
    items, the given text as [raw_text], [success] false and the fixed
    message, in both pipelines. *)
Theorem short_text_fails (text : str) :
  text = [] \/ List.length (strip text) < 10 ->
  OcrProcessor.process_receipt text =
    {| vendor := None; amount := None; date := None; category := py "other";
       line_items := []; raw_text := text; success := false;
       error := Some (py "Could not extract meaningful text from image") |}
  /\ SimpleOcr.process_receipt text =
    {| vendor := None; amount := None; date := None; category := py "other";
       line_items := []; raw_text := text; success := false;
       error := Some (py "Could not extract meaningful text from file") |}.
Proof.
  intros H.
  assert (Hguard : str_eqb text [] || Nat.ltb (List.length (strip text)) 10 = true).
  { destruct H as [-> | H]; [reflexivity |].
    apply orb_true_iff; right. now apply Nat.ltb_lt. }
  unfold OcrProcessor.process_receipt, OcrProcessor.process_text,
    SimpleOcr.process_receipt, SimpleOcr.process_text.
  rewrite Hguard. split; reflexivity.
Qed.

Lemma short_text_fails_witness :
  OcrProcessor.process_receipt (py "hi") =
    {| vendor := None; amount := None; date := None; category := py "other";
       line_items := []; raw_text := py "hi"; success := false;
       error := Some (py "Could not extract meaningful text from image") |}
  /\ SimpleOcr.process_receipt (py "hi") =
    {| vendor := None; amount := None; date := None; category := py "other";
       line_items := []; raw_text := py "hi"; success := false;
       error := Some (py "Could not extract meaningful text from file") |}.
Proof.
  apply (short_text_fails (py "hi")). right. vm_compute. lia.
Defined.

(** The pipeline of simple_ocr.py has no step that raises. *)
Lemma simple_process_text_returns (text : str) :
  exists r, SimpleOcr.process_text text = Return r /\ SimpleOcr.process_receipt text = r.
Proof.
  unfold SimpleOcr.process_receipt, SimpleOcr.process_text.
  destruct (str_eqb text [] || Nat.ltb (List.length (strip text)) 10); eexists; split; reflexivity.
Qed.

(** The only step of ocr_processor.py that raises is the extraction of
    the line items. *)
Lemma ocr_fault_comes_from_line_items (text : str) (e : exn) :
  OcrProcessor.process_text text = Raise e ->
  OcrProcessor.extract_line_items text = Raise e.
Proof.
  unfold OcrProcessor.process_text.
  destruct (str_eqb text [] || Nat.ltb (List.length (strip text)) 10); [discriminate |].
  destruct (OcrProcessor.extract_line_items text) as [items|e']; cbn [bind];
    [discriminate | now intros [= ->]].
Qed.

(** C1: [process_receipt] always returns a result; a fault raised inside
    the pipeline is caught by the handler and becomes a result with
    [success] false and the message of the fault in [error].  The pipeline
    of simple_ocr.py raises nothing, so its result is the one of its body. *)
Theorem process_receipt_captures_faults (text : str) (e : exn) :
  OcrProcessor.process_text text = Raise e ->
  OcrProcessor.process_receipt text =
    {| vendor := None; amount := None; date := None; category := py "other";
       line_items := []; raw_text := []; success := false;
       error := Some (exn_message e) |}
  /\ (forall e', SimpleOcr.process_text text = Raise e' ->
        SimpleOcr.process_receipt text =
          {| vendor := None; amount := None; date := None; category := py "other";
             line_items := []; raw_text := []; success := false;
             error := Some (exn_message e') |}).
Proof.
  intros H. split.
  - unfold OcrProcessor.process_receipt. now rewrite H.
  - intros e' H'. unfold SimpleOcr.process_receipt. now rewrite H'.
Qed.

(** A line with a price below 10 makes the third line pattern match without
    its quantity group, and the extractor calls [replace] on [None]. *)
Lemma process_receipt_captures_faults_witness :
  OcrProcessor.process_receipt (py "Chewing Gum 5") =
    {| vendor := None; amount := None; date := None; category := py "other";
       line_items := []; raw_text := []; success := false;
       error := Some (exn_message
                        (AttributeError (py "'NoneType' object has no attribute 'replace'"))) |}.
Proof.
  destruct (process_receipt_captures_faults (py "Chewing Gum 5")
              (AttributeError (py "'NoneType' object has no attribute 'replace'")))
    as [H _].
  - vm_compute. reflexivity.
  - exact H.
Defined.

(** C8, as the code has it: [raw_text] is the input text whenever the
    pipeline returns, on success and on the failure for a short text; when a
    fault is caught, [raw_text] is the empty string. *)
Theorem raw_text_kept_unless_fault (text : str) :
  raw_text (SimpleOcr.process_receipt text) = text
  /\ match OcrProcessor.process_text text with
     | Return _ => raw_text (OcrProcessor.process_receipt text) = text
     | Raise _ => raw_text (OcrProcessor.process_receipt text) = []
     end.
Proof.
  split.
  - unfold SimpleOcr.process_receipt, SimpleOcr.process_text.
    destruct (str_eqb text [] || Nat.ltb (List.length (strip text)) 10); reflexivity.
  - unfold OcrProcessor.process_receipt, OcrProcessor.process_text.
    destruct (str_eqb text [] || Nat.ltb (List.length (strip text)) 10); [reflexivity |].
    destruct (OcrProcessor.extract_line_items text); reflexivity.
Qed.

(** C8 fails on a text whose line items raise: the handler returns an empty
    [raw_text]. *)
Lemma raw_text_lost_on_fault :
  success (OcrProcessor.process_receipt (py "Chewing Gum 5")) = false
  /\ raw_text (OcrProcessor.process_receipt (py "Chewing Gum 5")) <> py "Chewing Gum 5".
Proof.
  split; [vm_compute; reflexivity | vm_compute; discriminate].
Qed.

(** ** Scenario 1 *)

(** C3: on the text of scenario 1 both pipelines find the amount 12.34 (the
    float, which is 3473401212609495 / 2 ^ 48) and the vendor
    [Big Store LTD], but the date they return is [24-12-31]: the
    day/month/year pattern is tried before the ISO pattern and matches
    inside the year. *)
Theorem scenario_1_date_is_cut :
  vendor (OcrProcessor.process_receipt scenario_1) = Some (py "Big Store LTD")
  /\ amount (OcrProcessor.process_receipt scenario_1) = Some (round64 (1234 # 100))
  /\ date (OcrProcessor.process_receipt scenario_1) = Some (py "24-12-31")
  /\ vendor (SimpleOcr.process_receipt scenario_1) = Some (py "Big Store LTD")
  /\ amount (SimpleOcr.process_receipt scenario_1) = Some (round64 (1234 # 100))
  /\ date (SimpleOcr.process_receipt scenario_1) = Some (py "24-12-31")
  /\ round64 (1234 # 100) = Finite (3473401212609495 # 281474976710656).
Proof.
  repeat split; vm_compute; reflexivity.
Qed.

(** The ISO pattern alone reads the whole date. *)
Lemma iso_pattern_reads_scenario_1 :
  option_map (fun m => group_str scenario_1 m 1)
    (Re.re_search (Re.compile "(\d{4}-\d{1,2}-\d{1,2})") scenario_1 Re.IGNORECASE)
  = Some (py "2024-12-31").
Proof. vm_compute. reflexivity. Qed.

(** ** The recipient label *)

(** C9: a line that carries the label in lower case passes the
    case-insensitive test, but the cut at ['Details'] is case-sensitive and
    finds nothing, so simple_ocr.py returns no vendor where ocr_processor.py
    returns the text after the label; with the label capitalised as in
    the source both return it. *)
Theorem lower_case_label_is_missed :
  SimpleOcr.recipient_of_line (py "recipient details John Smith") = None
  /\ SimpleOcr.extract_vendor (py "recipient details John Smith") = None
  /\ OcrProcessor.extract_vendor (py "recipient details John Smith") = Some (py "John Smith")
  /\ SimpleOcr.extract_vendor (py "Recipient Details John Smith") = Some (py "John Smith").
Proof.
  repeat split; vm_compute; reflexivity.
Qed.

(** ** The classifier *)

Lemma first_category_head (name : str) (keys : list str) (rest : list (str * list str))
  (content : str) :
  any_in keys content = true ->
  OcrProcessor.first_category ((name, keys) :: rest) content = Some name.
Proof.
  intros H. unfold OcrProcessor.first_category. cbn [first_some snd fst].
  now rewrite H.
Qed.

Lemma ocr_categories_head :
  exists keys rest,
    OcrProcessor.categories = (py "financial", py "opay" :: keys) :: rest.
Proof. do 2 eexists. vm_compute. reflexivity. Qed.

Lemma simple_general_categories_head :
  exists keys rest,
    SimpleOcr.general_categories = (py "financial", py "opay" :: keys) :: rest.
Proof. do 2 eexists. vm_compute. reflexivity. Qed.

Lemma any_in_head (key : str) (keys : list str) (content : str) :
  contains key content = true -> any_in (key :: keys) content = true.
Proof. intros H. unfold any_in. cbn [existsb]. now rewrite H. Qed.

Lemma lower_opay : lower (py "opay") = py "opay".
Proof. reflexivity. Qed.

(** C10, as the code has it: for a text that contains [opay], the
    classifier of ocr_processor.py answers ["financial"] whatever the
    vendor; the classifier of simple_ocr.py answers ["financial"] when the
    vendor matches no vendor keyword and is not a name of two words or more
    without a company indicator, and ["personal"] for such a name. *)
Theorem opay_is_financial_unless_personal (vendor : option str) (text : str) :
  contains (py "opay") text = true ->
  OcrProcessor.classify_category vendor text = py "financial"
  /\ (OcrProcessor.first_category SimpleOcr.vendor_categories
        (lower (OcrProcessor.or_empty vendor)) = None ->
      SimpleOcr.classify_category vendor text =
        if SimpleOcr.looks_personal vendor then py "personal" else py "financial").
Proof.
  intros H. apply (contains_lower _ _ lower_opay) in H. split.
  - unfold OcrProcessor.classify_category.
    destruct ocr_categories_head as [keys [rest ->]].
    rewrite first_category_head; [reflexivity |].
    apply any_in_head.
    rewrite 2 lower_app. now do 2 apply contains_app_r.
  - intros Hvendor. unfold SimpleOcr.classify_category. rewrite Hvendor.
    destruct (SimpleOcr.looks_personal vendor); [reflexivity |].
    destruct simple_general_categories_head as [keys [rest ->]].
    rewrite first_category_head; [reflexivity |].
    now apply any_in_head.
Qed.

Lemma opay_is_financial_unless_personal_witness :
  OcrProcessor.classify_category (SimpleOcr.extract_vendor opay_receipt) opay_receipt
    = py "financial"
  /\ SimpleOcr.classify_category (SimpleOcr.extract_vendor opay_receipt) opay_receipt =
       if SimpleOcr.looks_personal (SimpleOcr.extract_vendor opay_receipt)
       then py "personal" else py "financial".
Proof.
  destruct (opay_is_financial_unless_personal
              (SimpleOcr.extract_vendor opay_receipt) opay_receipt) as [H1 H2].
  - vm_compute. reflexivity.
  - split; [exact H1 | apply H2; vm_compute; reflexivity].
Defined.

(** C10 fails in simple_ocr.py: the vendor [John Smith] carries no company
    suffix, the text contains [opay], and the category is ["personal"]. *)
Lemma opay_receipt_is_personal :
  contains (py "opay") opay_receipt = true
  /\ SimpleOcr.extract_vendor opay_receipt = Some (py "John Smith")
  /\ any_in SimpleOcr.company_indicators (lower (py "John Smith")) = false
  /\ category (SimpleOcr.process_receipt opay_receipt) = py "personal"
  /\ category (SimpleOcr.process_receipt opay_receipt) <> py "financial".
Proof.
  repeat split; vm_compute; try reflexivity; discriminate.
Qed.

(** ** binary64 *)

(** Values of [fl] and [round64], as Python prints them for [12.34],
    [0.1], [100.0 / 3], [11 / 20 * 100], [5e-324 / 2] and
    [float('1' + '0' * 309)]. *)
Lemma binary64_examples :
  fl (1234 # 100) = (3473401212609495 # 281474976710656)%Q
  /\ fl (1 # 10) = (3602879701896397 # 36028797018963968)%Q
  /\ fl (100 / 3) = (4691249611844267 # 140737488355328)%Q
  /\ fl (fl (11 # 20) * 100) = (7740561859543041 # 140737488355328)%Q
  /\ fl (pow2 (-1074) / 2) = 0%Q
  /\ fl 7000 = 7000%Q
  /\ round64 (inject_Z (10 ^ 309)) = Infinity
  /\ round64 (inject_Z (2 ^ 1024 - 2 ^ 970 - 1)) = Finite (inject_Z (2 ^ 1024 - 2 ^ 971))
  /\ round64 (inject_Z (2 ^ 1024 - 2 ^ 970)) = Infinity.
Proof.
  repeat split; vm_compute; reflexivity.
Qed.



(** ** Line items *)

Lemma digits_value_nonneg (s : str) : (0 <= digits_value s)%Z.
Proof.
  unfold digits_value.
  assert (H : forall acc, (0 <= acc)%Z ->
            (0 <= fold_left (fun acc c => 10 * acc + digit_value c) s acc)%Z).
  { induction s as [|c s IH]; intros acc Hacc; cbn [fold_left]; [assumption |].
    apply IH. unfold digit_value. pose proof (N2Z.is_nonneg (c - 48)). lia. }
  apply H. lia.
Qed.

Lemma int_of_group_nonneg (g : option str) (q : Z) :
  OcrProcessor.int_of_group g = Return q -> (0 <= q)%Z.
Proof.
  destruct g as [s|]; simpl; [|discriminate].
  unfold int_of_str. destruct (isdigit s); [|discriminate].
  destruct (Nat.ltb int_max_str_digits (List.length s)); [discriminate |].
  intros H. injection H as <-. apply digits_value_nonneg.
Qed.

(** The quantity read off the groups of a match is not negative. *)
Lemma fields_of_groups_quantity (groups : list (option str))
  (n : option str) (q : Z) (u t : pyfloat) :
  OcrProcessor.fields_of_groups groups = Return (Some (n, q, u, t)) -> (0 <= q)%Z.
Proof.
  unfold OcrProcessor.fields_of_groups.
  destruct groups as [|g1 [|g2 [|g3 [|g4 [|g5 rest]]]]]; try discriminate.
  - destruct (OcrProcessor.price_of_group g2) as [total|]; cbn [bind]; [|discriminate].
    intros H. injection H as <- <- <- <-. lia.
  - destruct (match g2 with
              | Some s => negb (str_eqb s []) && isdigit s
              | None => false
              end).
    + destruct (OcrProcessor.int_of_group g2) as [quantity|] eqn:E; cbn [bind]; [|discriminate].
      destruct (OcrProcessor.price_of_group g3) as [total|]; cbn [bind]; [|discriminate].
      destruct (OcrProcessor.unit_price_of total quantity) as [unit|]; cbn [bind];
        [|discriminate].
      intros H. injection H as <- <- <- <-. now apply int_of_group_nonneg with g2.
    + destruct (OcrProcessor.price_of_group g2) as [total|]; cbn [bind]; [|discriminate].
      intros H. injection H as <- <- <- <-. lia.
  - destruct (OcrProcessor.int_of_group g3) as [quantity|] eqn:E; cbn [bind]; [|discriminate].
    destruct (OcrProcessor.price_of_group g4) as [total|]; cbn [bind]; [|discriminate].
    destruct (OcrProcessor.unit_price_of total quantity) as [unit|]; cbn [bind];
      [|discriminate].
    intros H. injection H as <- <- <- <-. now apply int_of_group_nonneg with g3.
Qed.

Lemma float_ltb_at_least (x : pyfloat) (bound : Q) :
  float_ltb x bound = false -> at_least bound x.
Proof.
  destruct x as [q|]; cbn [float_ltb at_least]; [|trivial].
  unfold Qltb. rewrite negb_false_iff. apply Qle_bool_iff.
Qed.

(** What every item that a line yields satisfies. *)
Lemma item_of_line_sound (patterns : list Re.regex) (line : str) (item : LineItem) :
  OcrProcessor.item_of_line patterns line = Return (Some item) ->
  at_least 10 (total_price item) /\ (0 <= quantity item)%Z.
Proof.
  induction patterns as [|pattern rest IH]; cbn [OcrProcessor.item_of_line].
  - discriminate.
  - destruct (Re.re_match pattern (strip line) Re.IGNORECASE) as [m|]; [|exact IH].
    destruct (OcrProcessor.fields_of_groups (Re.groups pattern (strip line) m))
      as [[[[[n q] u] t]|]|e] eqn:F; cbn [bind]; [|exact IH|discriminate].
    destruct (OcrProcessor.method "strip" n) as [n'|]; cbn [bind]; [|discriminate].
    destruct (float_ltb t 10) eqn:Ht; [exact IH |].
    intros H. injection H as <-. cbn [total_price quantity]. split.
    + now apply float_ltb_at_least.
    + now apply fields_of_groups_quantity in F.
Qed.

Lemma items_of_lines_sound (lines : list str) (items : list LineItem) :
  OcrProcessor.items_of_lines lines = Return items ->
  in_line_order lines items
  /\ Forall (fun item => at_least 10 (total_price item) /\ (0 <= quantity item)%Z) items.
Proof.
  revert items. induction lines as [|line lines IH]; intros items;
    cbn [OcrProcessor.items_of_lines].
  - intros H. injection H as <-. split; constructor.
  - destruct (OcrProcessor.skipped_line line) eqn:Hskip.
    + intros H. apply IH in H as [Horder Hall]. split; [now constructor | assumption].
    + destruct (OcrProcessor.item_of_line OcrProcessor.line_patterns line)
        as [found|] eqn:E; cbn [bind]; [|discriminate].
      destruct (OcrProcessor.items_of_lines lines) as [items'|]; cbn [bind]; [|discriminate].
      destruct (IH items' eq_refl) as [Horder Hall].
      intros H. injection H as <-. destruct found as [item|].
      * split; [now constructor |].
        constructor; [now apply item_of_line_sound in E | assumption].
      * split; [now constructor | assumption].
Qed.

(** C6: the line items come from the non-empty lines of the text in the
    order of those lines, one per line at most, and none has a total below
    the threshold of 10. *)
Theorem line_items_in_order_above_threshold (text : str) (items : list LineItem) :
  OcrProcessor.extract_line_items text = Return items ->
  in_line_order (stripped_lines text) items
  /\ Forall (fun item => at_least 10 (total_price item)) items.
Proof.
  intros H. apply items_of_lines_sound in H as [Horder Hall]. split; [assumption |].
  eapply Forall_impl; [|exact Hall]. now intros item [Htotal _].
Qed.

Lemma line_items_in_order_above_threshold_witness :
  in_line_order (stripped_lines two_items)
    [ {| name := py "Big Pack"; quantity := 2;
         unit_price := Finite 400; total_price := Finite 800 |};
      {| name := py "Bread"; quantity := 1;
         unit_price := Finite 300; total_price := Finite 300 |} ]
  /\ Forall (fun item => at_least 10 (total_price item))
       [ {| name := py "Big Pack"; quantity := 2;
            unit_price := Finite 400; total_price := Finite 800 |};
         {| name := py "Bread"; quantity := 1;
            unit_price := Finite 300; total_price := Finite 300 |} ].
Proof.
  apply (line_items_in_order_above_threshold two_items).
  vm_compute. reflexivity.
Defined.

(** C7, as the code has it: every line item has an integer quantity of at
    least 0; its unit price and its total price are floats, which the
    record always holds. *)
Theorem line_items_have_quantity (text : str) (items : list LineItem) :
  OcrProcessor.extract_line_items text = Return items ->
  Forall (fun item => (0 <= quantity item)%Z) items.
Proof.
  intros H. apply items_of_lines_sound in H as [_ Hall].
  eapply Forall_impl; [|exact Hall]. now intros item [_ Hquantity].
Qed.

Lemma line_items_have_quantity_witness :
  Forall (fun item => (0 <= quantity item)%Z)
    [ {| name := py "Milk"; quantity := 0;
         unit_price := Finite 800; total_price := Finite 800 |} ].
Proof.
  apply (line_items_have_quantity (py "Milk Pcs 0 800.00")).
  vm_compute. reflexivity.
Defined.

(** C7 fails on a line that states the quantity 0: the item is kept, with
    the quantity 0. *)
Lemma quantity_zero_is_kept :
  exists item,
    OcrProcessor.extract_line_items (py "Milk Pcs 0 800.00") = Return [item]
    /\ ~ (1 <= quantity item)%Z.
Proof.
  exists {| name := py "Milk"; quantity := 0;
            unit_price := Finite 800; total_price := Finite 800 |}.
  split; [vm_compute; reflexivity | cbn; lia].
Qed.

(** The unit price is the binary64 quotient: 100 by 3 and 15 by 11 as Python
    prints them, and a quantity that no float holds raises. *)
Lemma unit_price_examples :
  OcrProcessor.unit_price_of (Finite 100) 3
    = Return (Finite (4691249611844267 # 140737488355328))
  /\ OcrProcessor.unit_price_of (Finite 15) 11
    = Return (Finite (6141272219141585 # 4503599627370496))
  /\ OcrProcessor.unit_price_of (Finite 800) (10 ^ 309)
    = Raise (OverflowError (py "int too large to convert to float"))
  /\ OcrProcessor.unit_price_of (Finite 800) 0 = Return (Finite 800).
Proof.
  repeat split; vm_compute; reflexivity.
Qed.

(** ** The amount with the highest score *)

Lemma Qltb_lt (x y : Q) : Qltb x y = true <-> (x < y)%Q.
Proof.
  unfold Qltb. rewrite negb_true_iff. split.
  - intros H. apply Qnot_le_lt. intros Hle. apply Qle_bool_iff in Hle. congruence.
  - intros H. destruct (Qle_bool y x) eqn:E; [|reflexivity].
    apply Qle_bool_iff in E. exfalso. now apply (Qlt_not_le x y).
Qed.

Lemma Qltb_ge (x y : Q) : Qltb x y = false <-> (y <= x)%Q.
Proof.
  unfold Qltb. rewrite negb_false_iff. apply Qle_bool_iff.
Qed.

Lemma in_filter_map {A B : Type} (f : A -> option B) (l : list A) (y : B) :
  In y (filter_map f l) -> exists x, In x l /\ f x = Some y.
Proof.
  induction l as [|x l IH]; cbn [filter_map]; [intros [] |].
  destruct (f x) as [y'|] eqn:E.
  - intros [<- | H]; [exists x; split; [now left | assumption] |].
    destruct (IH H) as [x' [Hin Hx']]. exists x'. split; [now right | assumption].
  - intros H. destruct (IH H) as [x' [Hin Hx']]. exists x'. split; [now right | assumption].
Qed.



Section Sorting.

Import OcrProcessor.


End Sorting.




(** On [close_scores] the candidates are 56 at position 0 and 1 at position
    11 / 20.  Their scores are equal in exact arithmetic; in binary64 the
    second is greater, and its amount is returned. *)
Lemma rounding_decides_the_winner :
  OcrProcessor.significant_amounts close_scores = [(56, 0); (1, fl (11 # 20))]%Q
  /\ (0 * 100 + 56 == (11 # 20) * 100 + 1)%Q
  /\ OcrProcessor.final_score close_scores (56, 0)%Q = 56%Q
  /\ OcrProcessor.final_score close_scores (1, fl (11 # 20))%Q
     = (7881299347898369 # 140737488355328)%Q
  /\ OcrProcessor.extract_amount close_scores = Some (Finite 1).
Proof.
  repeat split; vm_compute; reflexivity.
Qed.

(** On [cut_keyword] the candidate 50 starts at 11, and [due] lies within
    the 50 characters after it; but the index computed back from the
    position is 10, the text around it stops inside [due], the candidate
    gets no bonus, and 80 is returned. *)
Lemma rounding_moves_the_window :
  OcrProcessor.significant_amounts cut_keyword = [(80, 0); (50, fl (11 # 69))]%Q
  /\ contains (py "due") (lower (slice cut_keyword 0 (11 + 50))) = true
  /\ Qfloor (fl (fl (11 # 69) * fl (inject_Z (Z.of_nat (List.length cut_keyword))))) = 10%Z
  /\ OcrProcessor.has_final_context cut_keyword (fl (11 # 69)) = false
  /\ OcrProcessor.extract_amount cut_keyword = Some (Finite 80).
Proof.
  repeat split; vm_compute; reflexivity.
Qed.

(** ** Amounts as decimal numerals *)










Lemma max_of_in (first : Q) (rest : list Q) :
  In (SimpleOcr.max_of first rest) (first :: rest).
Proof.
  unfold SimpleOcr.max_of. revert first.
  induction rest as [|x rest IH]; intros first; cbn [fold_left]; [now left |].
  destruct (IH (if Qltb first x then x else first)) as [H | H].
  - destruct (Qltb first x); [right; left | left]; assumption.
  - right. now right.
Qed.



(** * Further properties *)

(** ** Strings *)

Lemma contains_refl (s : str) : contains s s = true.
Proof. apply contains_spec. exists [], []. now rewrite app_nil_r. Qed.

Lemma contains_trans (a b c : str) :
  contains a b = true -> contains b c = true -> contains a c = true.
Proof.
  rewrite !contains_spec. intros [p [q ->]] [p' [q' ->]].
  exists (p' ++ p), (q ++ q'). now rewrite <- !app_assoc.
Qed.

Lemma contains_nil (s : str) : contains [] s = true.
Proof. apply contains_spec. now exists [], s. Qed.

Lemma contains_suffix (a b : str) : contains b (a ++ b) = true.
Proof. apply contains_app_r, contains_refl. Qed.

Lemma contains_prefix (a b : str) : contains a (a ++ b) = true.
Proof. apply contains_spec. now exists [], b. Qed.

Lemma lstrip_spec (s : str) :
  exists spaces, s = spaces ++ lstrip s /\ forallb is_space spaces = true
                 /\ starts_clean (lstrip s).
Proof.
  induction s as [|c s [spaces [Hs [Hsp Hclean]]]].
  - exists []. repeat split.
  - cbn [lstrip]. destruct (is_space c) eqn:E.
    + exists (c :: spaces). cbn [forallb app]. rewrite E, Hsp. repeat split; [|assumption].
      now rewrite <- Hs.
    + exists []. repeat split. exact E.
Qed.

Lemma lstrip_clean (s : str) : starts_clean s -> lstrip s = s.
Proof.
  destruct s as [|c s]; [reflexivity |]. cbn. now intros ->.
Qed.

Lemma rstrip_spec (s : str) :
  exists spaces, s = rstrip s ++ spaces /\ forallb is_space spaces = true
                 /\ starts_clean (rev (rstrip s)).
Proof.
  unfold rstrip. destruct (lstrip_spec (rev s)) as [spaces [Hs [Hsp Hclean]]].
  exists (rev spaces). split; [|split].
  - rewrite <- rev_app_distr, <- Hs. now rewrite rev_involutive.
  - rewrite forallb_forall in *. intros x Hx. apply Hsp. now apply in_rev.
  - now rewrite rev_involutive.
Qed.

Lemma strip_contains (s : str) : contains (strip s) s = true.
Proof.
  unfold strip. destruct (lstrip_spec s) as [sp [Hs _]].
  destruct (rstrip_spec (lstrip s)) as [sp' [Hs' _]].
  apply contains_trans with (lstrip s).
  - rewrite Hs' at 2. apply contains_prefix.
  - rewrite Hs at 2. apply contains_suffix.
Qed.

(** Removing trailing white space keeps a clean start. *)
Lemma rstrip_keeps_start (s : str) : starts_clean s -> starts_clean (rstrip s).
Proof.
  intros H. destruct (rstrip_spec s) as [sp [Hs [Hsp _]]].
  destruct (rstrip s) as [|c r] eqn:E; [exact I |].
  rewrite Hs in H. exact H.
Qed.

Lemma strip_trimmed (s : str) : trimmed (strip s).
Proof.
  unfold strip. split.
  - apply rstrip_keeps_start. now destruct (lstrip_spec s) as [sp [_ [_ H]]].
  - now destruct (rstrip_spec (lstrip s)) as [sp [_ [_ H]]].
Qed.

Lemma rstrip_clean (s : str) : starts_clean (rev s) -> rstrip s = s.
Proof.
  intros H. unfold rstrip. rewrite lstrip_clean by assumption. apply rev_involutive.
Qed.

Lemma strip_of_trimmed (s : str) : trimmed s -> strip s = s.
Proof.
  intros [H1 H2]. unfold strip. rewrite (lstrip_clean s H1). now apply rstrip_clean.
Qed.

Lemma strip_idempotent (s : str) : strip (strip s) = strip s.
Proof. apply strip_of_trimmed, strip_trimmed. Qed.

Lemma slice_contains (s : str) (i j : nat) : contains (slice s i j) s = true.
Proof.
  unfold slice. apply contains_spec.
  exists (firstn i s), (skipn (j - i) (skipn i s)).
  now rewrite firstn_skipn, firstn_skipn.
Qed.

Lemma group_str_contains (text : str) (m : Re.rmatch) (i : nat) :
  contains (group_str text m i) text = true.
Proof.
  unfold group_str, Re.group. destruct i as [|i].
  - apply slice_contains.
  - destruct (Re.lookup (S i) (Re.m_caps m)) as [span|]; cbn [option_map].
    + apply slice_contains.
    + apply contains_nil.
Qed.

Lemma first_some_spec {A B : Type} (f : A -> option B) (l : list A) (y : B) :
  first_some f l = Some y ->
  exists before x after,
    l = before ++ x :: after /\ f x = Some y /\ Forall (fun z => f z = None) before.
Proof.
  induction l as [|x l IH]; cbn [first_some]; [discriminate |].
  destruct (f x) as [y'|] eqn:E; cbn [Re.or_else].
  - intros [= ->]. exists [], x, l. repeat split; [assumption | constructor].
  - intros H. destruct (IH H) as [before [x' [after [-> [Hx' Hb]]]]].
    exists (x :: before), x', after. repeat split; [assumption | now constructor].
Qed.

Lemma first_some_none {A B : Type} (f : A -> option B) (l : list A) :
  first_some f l = None <-> Forall (fun z => f z = None) l.
Proof.
  induction l as [|x l IH]; cbn [first_some].
  - split; [constructor | reflexivity].
  - destruct (f x) as [y|] eqn:E; cbn [Re.or_else].
    + split; [discriminate | intros H; inversion H; congruence].
    + rewrite IH. split; [now constructor | intros H; now inversion H].
Qed.

Lemma first_some_in {A B : Type} (f : A -> option B) (l : list A) (y : B) :
  first_some f l = Some y -> exists x, In x l /\ f x = Some y.
Proof.
  intros H. destruct (first_some_spec f l y H) as [before [x [after [-> [Hx _]]]]].
  exists x. split; [apply in_or_app; right; now left | assumption].
Qed.

(** ** Dates *)

(** X1: the date that [extract_date] returns, in either module, is a piece
    of the text, with no white space at its ends. *)
Theorem dates_are_verbatim (text d : str) :
  OcrProcessor.extract_date text = Some d \/ SimpleOcr.extract_date text = Some d ->
  contains d text = true /\ trimmed d.
Proof.
  intros [H | H].
  - unfold OcrProcessor.extract_date in H.
    apply first_some_in in H as [pattern [_ H]].
    destruct (Re.re_search pattern text Re.IGNORECASE) as [m|]; [|discriminate].
    injection H as <-. split; [|apply strip_trimmed].
    eapply contains_trans; [apply strip_contains |].
    destruct (Nat.ltb 0 _); apply group_str_contains.
  - unfold SimpleOcr.extract_date in H.
    apply first_some_in in H as [pattern [_ H]].
    destruct (Re.re_search pattern text Re.IGNORECASE) as [m|]; [|discriminate].
    injection H as <-. split; [|apply strip_trimmed].
    eapply contains_trans; [apply strip_contains | apply group_str_contains].
Qed.

Lemma dates_are_verbatim_witness :
  contains (py "24-12-31") scenario_1 = true /\ trimmed (py "24-12-31").
Proof.
  apply (dates_are_verbatim scenario_1 (py "24-12-31")). left. vm_compute. reflexivity.
Defined.

(** ** Categories *)

Lemma first_category_spec (table : list (str * list str)) (content c : str) :
  OcrProcessor.first_category table content = Some c ->
  exists before keys after,
    table = before ++ (c, keys) :: after
    /\ any_in keys content = true
    /\ Forall (fun entry => any_in (snd entry) content = false) before.
Proof.
  unfold OcrProcessor.first_category. intros H.
  apply first_some_spec in H as [before [[c' keys] [after [-> [Hx Hb]]]]].
  cbn [fst snd] in Hx. destruct (any_in keys content) eqn:E; [|discriminate].
  injection Hx as ->. exists before, keys, after. repeat split; [assumption |].
  eapply Forall_impl; [|exact Hb]. intros [c0 k0]. cbn [fst snd].
  now destruct (any_in k0 content).
Qed.

Lemma first_category_none (table : list (str * list str)) (content : str) :
  OcrProcessor.first_category table content = None ->
  Forall (fun entry => any_in (snd entry) content = false) table.
Proof.
  unfold OcrProcessor.first_category. intros H. apply first_some_none in H.
  eapply Forall_impl; [|exact H]. intros [c0 k0]. cbn [fst snd].
  now destruct (any_in k0 content).
Qed.

(** X2: the classifier of ocr_processor.py answers with the first category
    of its table, in the order of the dictionary, one of whose keywords
    occurs in the lower-cased vendor, a space and the text, and with
    ["other"] when no keyword of the table occurs; so its answer is one of
    thirteen names. *)
Theorem ocr_category_is_first_match (vendor : option str) (text : str) :
  let content := lower (OcrProcessor.or_empty vendor ++ py " " ++ text) in
  let category := OcrProcessor.classify_category vendor text in
  ((exists before keys after,
      OcrProcessor.categories = before ++ (category, keys) :: after
      /\ any_in keys content = true
      /\ Forall (fun entry => any_in (snd entry) content = false) before)
   \/ (category = py "other"
       /\ Forall (fun entry => any_in (snd entry) content = false) OcrProcessor.categories))
  /\ In category
       (map py ["financial"; "electronics"; "technology"; "business"; "groceries";
                "restaurant"; "fuel"; "retail"; "pharmacy"; "transportation";
                "utilities"; "education"; "other"]).
Proof.
  intros content category.
  assert (Hcases :
    (exists before keys after,
      OcrProcessor.categories = before ++ (category, keys) :: after
      /\ any_in keys content = true
      /\ Forall (fun entry => any_in (snd entry) content = false) before)
   \/ (category = py "other"
       /\ Forall (fun entry => any_in (snd entry) content = false) OcrProcessor.categories)).
  { subst category. unfold OcrProcessor.classify_category. fold content.
    destruct (OcrProcessor.first_category OcrProcessor.categories content) as [c|] eqn:E.
    - left. now apply first_category_spec.
    - right. split; [reflexivity | now apply first_category_none]. }
  split; [exact Hcases |].
  change (map py _) with (map fst OcrProcessor.categories ++ [py "other"]).
  apply in_or_app. destruct Hcases as [[before [keys [after [-> _]]]] | [-> _]].
  - left. rewrite map_app. apply in_or_app. right. now left.
  - right. now left.
Qed.

(** ** Membership in a list of strings, decided *)

Lemma str_eqb_eq (a b : str) : str_eqb a b = true <-> a = b.
Proof.
  unfold str_eqb. destruct (list_eq_dec N.eq_dec a b); split; congruence.
Qed.

Lemma subset_of_names (small big : list str) :
  forallb (fun x => existsb (str_eqb x) big) small = true ->
  forall x, In x small -> In x big.
Proof.
  intros H x Hx. rewrite forallb_forall in H. specialize (H x Hx).
  apply existsb_exists in H as [y [Hy Heq]]. apply str_eqb_eq in Heq. now subst.
Qed.

Lemma first_category_in (table : list (str * list str)) (content c : str) :
  OcrProcessor.first_category table content = Some c -> In c (map fst table).
Proof.
  intros H. apply first_category_spec in H as [before [keys [after [-> _]]]].
  rewrite map_app. apply in_or_app. right. now left.
Qed.

Lemma or_else_some {A : Type} (x y : option A) (v : A) :
  Re.or_else x y = Some v -> x = Some v \/ (x = None /\ y = Some v).
Proof. destruct x; cbn; [now left | now right]. Qed.

(** ** The classifier of simple_ocr.py *)

Lemma general_categories_eq :
  SimpleOcr.general_categories =
    [(py "financial", map py ["opay"; "mobile money"; "wallet"; "payment app"]);
     (py "personal", map py ["opay | 7"; "opay | 8"; "opay | 9"]);
     (py "business", map py ["company ltd"; "limited"; "corporation"; "enterprise"])].
Proof. reflexivity. Qed.

Lemma personal_keys_are_shadowed (content : str) :
  any_in (map py ["opay | 7"; "opay | 8"; "opay | 9"]) content = true ->
  any_in (map py ["opay"; "mobile money"; "wallet"; "payment app"]) content = true.
Proof.
  unfold any_in. cbn [map existsb]. intros H.
  assert (Hopay : contains (py "opay") content = true).
  { repeat (apply orb_true_iff in H as [H | H]); try discriminate;
      (eapply contains_trans; [|exact H]); vm_compute; reflexivity. }
  now rewrite Hopay.
Qed.

(** X3: the classifier of simple_ocr.py answers with one of twelve names.
    When a vendor keyword occurs in the vendor, the answer is the category
    of the first such keyword, whatever the text; otherwise the answer is
    ["personal"] exactly when the vendor looks like a person's name: the
    ["personal"] keywords of the text are never reached, since each of them
    contains [opay], a keyword of ["financial"], which is tried first. *)
Theorem simple_category_is_closed (vendor : option str) (text : str) :
  In (SimpleOcr.classify_category vendor text)
     (map py ["technology"; "electronics"; "groceries"; "retail"; "utilities"; "financial";
              "restaurant"; "fuel"; "transportation"; "personal"; "business"; "other"])
  /\ match OcrProcessor.first_category SimpleOcr.vendor_categories
             (lower (OcrProcessor.or_empty vendor)) with
     | Some category => SimpleOcr.classify_category vendor text = category
     | None =>
         if SimpleOcr.looks_personal vendor
         then SimpleOcr.classify_category vendor text = py "personal"
         else SimpleOcr.classify_category vendor text <> py "personal"
     end.
Proof.
  unfold SimpleOcr.classify_category.
  destruct (OcrProcessor.first_category SimpleOcr.vendor_categories
              (lower (OcrProcessor.or_empty vendor))) as [c|] eqn:Hvendor.
  - split; [|reflexivity].
    apply first_category_in in Hvendor. revert c Hvendor.
    apply subset_of_names. vm_compute. reflexivity.
  - destruct (SimpleOcr.looks_personal vendor).
    + split; [|reflexivity]. apply (subset_of_names [py "personal"]); [|now left].
      vm_compute. reflexivity.
    + destruct (OcrProcessor.first_category SimpleOcr.general_categories (lower text))
        as [c|] eqn:Hgeneral.
      * split.
        { apply first_category_in in Hgeneral. revert c Hgeneral.
          apply subset_of_names. vm_compute. reflexivity. }
        rewrite general_categories_eq in Hgeneral.
        unfold OcrProcessor.first_category in Hgeneral.
        cbn [first_some fst snd] in Hgeneral.
        destruct (any_in (map py ["opay"; "mobile money"; "wallet"; "payment app"])
                    (lower text)) eqn:Hfinancial.
        { cbn [Re.or_else] in Hgeneral. injection Hgeneral as <-.
          vm_compute. discriminate. }
        destruct (any_in (map py ["opay | 7"; "opay | 8"; "opay | 9"]) (lower text))
          eqn:Hpersonal.
        { apply personal_keys_are_shadowed in Hpersonal. congruence. }
        cbn [Re.or_else] in Hgeneral.
        destruct (any_in (map py ["company ltd"; "limited"; "corporation"; "enterprise"])
                    (lower text)); cbn [Re.or_else] in Hgeneral; [|discriminate].
        injection Hgeneral as <-. vm_compute. discriminate.
      * split; [|vm_compute; discriminate].
        apply (subset_of_names [py "other"]); [|now left]. vm_compute. reflexivity.
Qed.

(** ** The orchestrators *)


(** ** The greatest amount *)

Lemma max_of_upper_bound (rest : list Q) (first : Q) :
  (first <= SimpleOcr.max_of first rest)%Q
  /\ Forall (fun x => (x <= SimpleOcr.max_of first rest)%Q) rest.
Proof.
  unfold SimpleOcr.max_of. revert first.
  induction rest as [|x rest IH]; intros first; cbn [fold_left].
  - split; [apply Qle_refl | constructor].
  - destruct (IH (if Qltb first x then x else first)) as [Hbest Hrest].
    destruct (Qltb first x) eqn:E.
    + apply Qltb_lt in E. split; [|constructor; assumption].
      eapply Qle_trans; [apply Qlt_le_weak; exact E | exact Hbest].
    + apply Qltb_ge in E. split; [assumption |]. constructor; [|assumption].
      eapply Qle_trans; [exact E | exact Hbest].
Qed.

Lemma simple_candidate_range (text : str) (a : Q) :
  In a (SimpleOcr.amounts_found text) -> (fl (1 # 100) <= a)%Q /\ (a <= 10000000)%Q.
Proof.
  unfold SimpleOcr.amounts_found. intros H.
  apply in_flat_map in H as [pattern [_ H]].
  apply in_filter_map in H as [found [_ H]].
  unfold SimpleOcr.amount_of_match in H.
  destruct (float_of_str (remove_char (ch ",") found)) as [[amount|]|]; try discriminate.
  destruct (Qle_bool (fl (1 # 100)) amount && Qle_bool amount 10000000) eqn:E;
    [|discriminate].
  injection H as <-. apply andb_true_iff in E as [E1 E2].
  split; now apply Qle_bool_iff.
Qed.

(** X5: the amount that simple_ocr.py returns is a candidate that no
    candidate exceeds, between the float 0.01 and 10000000. *)
Theorem simple_amount_is_greatest (text : str) (a : pyfloat) :
  SimpleOcr.extract_amount text = Some a ->
  exists q,
    a = Finite q
    /\ In q (SimpleOcr.amounts_found text)
    /\ Forall (fun x => (x <= q)%Q) (SimpleOcr.amounts_found text)
    /\ (fl (1 # 100) <= q)%Q /\ (q <= 10000000)%Q.
Proof.
  unfold SimpleOcr.extract_amount.
  destruct (SimpleOcr.amounts_found text) as [|first rest] eqn:E; [discriminate |].
  intros [= <-]. exists (SimpleOcr.max_of first rest).
  split; [reflexivity |]. split; [apply max_of_in |]. split.
  - destruct (max_of_upper_bound rest first). now constructor.
  - apply (simple_candidate_range text). rewrite E. apply max_of_in.
Qed.

Lemma simple_amount_is_greatest_witness :
  exists q,
    Finite 7000 = Finite q
    /\ In q (SimpleOcr.amounts_found two_totals)
    /\ Forall (fun x => (x <= q)%Q) (SimpleOcr.amounts_found two_totals)
    /\ (fl (1 # 100) <= q)%Q /\ (q <= 10000000)%Q.
Proof.
  apply (simple_amount_is_greatest two_totals (Finite 7000)).
  vm_compute. reflexivity.
Defined.

(** ** Vendors *)

Lemma split_char_pieces (c : char) (s : str) :
  exists piece pieces,
    split_char c s = piece :: pieces
    /\ (exists rest, s = piece ++ rest)
    /\ Forall (fun p => contains p s = true) pieces.
Proof.
  induction s as [|x s [piece [pieces [E [[rest Hrest] Hpieces]]]]]; cbn [split_char].
  - exists [], []. repeat split; [now exists [] | constructor].
  - destruct (x =? c)%N.
    + exists [], (split_char c s). split; [reflexivity |]. split; [now exists (x :: s) |].
      rewrite E. constructor.
      * apply (contains_app_r piece [x] s). apply contains_spec. now exists [], rest.
      * eapply Forall_impl; [|exact Hpieces]. intros p. apply (contains_app_r p [x] s).
    + rewrite E. exists (x :: piece), pieces. split; [reflexivity |]. split.
      * exists rest. now rewrite Hrest at 1.
      * eapply Forall_impl; [|exact Hpieces]. intros p. apply (contains_app_r p [x] s).
Qed.

Lemma split_char_contains (c : char) (s piece : str) :
  In piece (split_char c s) -> contains piece s = true.
Proof.
  destruct (split_char_pieces c s) as [p [ps [-> [[rest Hrest] Hps]]]].
  intros [<- | H].
  - apply contains_spec. now exists [], rest.
  - rewrite Forall_forall in Hps. now apply Hps.
Qed.

Lemma stripped_lines_spec (text line : str) :
  In line (stripped_lines text) ->
  contains line text = true /\ trimmed line /\ line <> [].
Proof.
  unfold stripped_lines. intros H. apply in_map_iff in H as [piece [<- H]].
  apply filter_In in H as [Hpiece Hne]. split; [|split].
  - eapply contains_trans; [apply strip_contains | now apply (split_char_contains 10%N)].
  - apply strip_trimmed.
  - intros E. rewrite E in Hne. discriminate.
Qed.

Lemma split_once_after (sep s before after : str) (more : list str) :
  split_once sep s = before :: after :: more -> exists front, s = front ++ after.
Proof.
  revert before after more.
  induction s as [|x s IH]; intros before after more; cbn [split_once].
  - destruct (startswith sep []).
    + intros [= _ <- _]. exists []. now rewrite skipn_nil.
    + discriminate.
  - destruct (startswith sep (x :: s)).
    + intros [= _ <- _]. exists (firstn (List.length sep) (x :: s)).
      now rewrite firstn_skipn.
    + destruct (split_once sep s) as [|b [|a [|more' l]]] eqn:E; try discriminate.
      intros [= _ <- _]. destruct (IH b a [] eq_refl) as [front ->].
      now exists (x :: front).
Qed.

Lemma findall_contains (r : Re.regex) (text found : str) (flags : Re.flags) :
  In found (Re.re_findall r text flags) -> contains found text = true.
Proof.
  unfold Re.re_findall. intros H. apply in_map_iff in H as [m [<- _]].
  unfold Re.group. destruct (Nat.min 1 (Re.ngroups r)) as [|i].
  - apply slice_contains.
  - destruct (Re.lookup (S i) (Re.m_caps m)) as [span|]; cbn [option_map].
    + apply slice_contains.
    + apply contains_nil.
Qed.

Lemma in_firstn {A : Type} (n : nat) (l : list A) (x : A) : In x (firstn n l) -> In x l.
Proof.
  revert l. induction n as [|n IH]; intros [|y l]; cbn; try tauto.
  intros [-> | H]; [now left | right; now apply IH].
Qed.

(** X6: the vendor that simple_ocr.py returns is one of its three fixed
    names or a piece of the text of more than 3 characters, with no white
    space at its ends. *)
Theorem simple_vendor_origin (text v : str) :
  SimpleOcr.extract_vendor text = Some v ->
  v = py "Railway Corporation" \/ v = py "Electro Galactica Company LTD" \/ v = py "OPay"
  \/ (contains v text = true /\ trimmed v /\ 3 < List.length v).
Proof.
  unfold SimpleOcr.extract_vendor.
  destruct (contains (py "railway corporation") (lower text)); [intros [= <-]; now left |].
  destruct (contains (py "electro galactica") (lower text));
    [intros [= <-]; right; now left |].
  intros H. apply or_else_some in H as [H | [_ H]].
  { (* the recipient label *)
    do 3 right. apply first_some_in in H as [line [Hline H]].
    apply stripped_lines_spec in Hline as [Hline _].
    unfold SimpleOcr.recipient_of_line in H.
    destruct (contains (py "recipient details") (lower line)); [|discriminate].
    destruct (split_once (py "Details") line) as [|before [|after more]] eqn:E;
      try discriminate.
    destruct (Nat.ltb 3 (List.length (strip after))) eqn:Hlen; [|discriminate].
    injection H as <-. apply split_once_after in E as [front ->].
    split; [|split; [apply strip_trimmed | now apply Nat.ltb_lt]].
    eapply contains_trans; [apply strip_contains |].
    eapply contains_trans; [apply contains_suffix | exact Hline]. }
  apply or_else_some in H as [H | [_ H]].
  { (* the recipient patterns *)
    do 3 right. apply first_some_in in H as [pattern [_ H]].
    apply first_some_in in H as [found [Hfound H]].
    unfold SimpleOcr.recipient_of_match in H.
    destruct (Nat.ltb 3 (List.length (strip found))) eqn:Hlen; [|discriminate].
    injection H as <-.
    split; [|split; [apply strip_trimmed | now apply Nat.ltb_lt]].
    eapply contains_trans; [apply strip_contains | now apply findall_contains in Hfound]. }
  destruct (any_in (map py ["opay"; "pay transaction"; "#"]) (lower text)
            && contains (py "recipient") (lower text));
    [intros; injection H as <-; right; right; now left |].
  do 3 right. apply or_else_some in H as [H | [_ H]].
  - (* the company patterns *)
    apply first_some_in in H as [pattern [_ H]].
    apply first_some_in in H as [found [Hfound H]].
    unfold SimpleOcr.company_of_match in H.
    destruct (Nat.ltb 3 (List.length (strip found))) eqn:Hlen; [|discriminate].
    destruct (negb (contains (py "bank") (lower (strip found)))); [|discriminate].
    injection H as <-.
    split; [|split; [apply strip_trimmed | now apply Nat.ltb_lt]].
    eapply contains_trans; [apply strip_contains | now apply findall_contains in Hfound].
  - (* the upper-case line *)
    apply first_some_in in H as [line [Hline H]].
    apply in_firstn, stripped_lines_spec in Hline as [Hline [Htrim _]].
    unfold SimpleOcr.uppercase_line in H.
    destruct (any_in _ (lower line)); [discriminate |].
    destruct (Nat.ltb 3 (List.length line)) eqn:Hlen; [|discriminate].
    destruct (Nat.ltb (List.length line) 50); [|discriminate].
    cbn [andb] in H. destruct (Qltb _ _); [|discriminate].
    injection H as <-. rewrite (strip_of_trimmed line Htrim).
    split; [assumption | split; [assumption | now apply Nat.ltb_lt]].
Qed.

Lemma simple_vendor_origin_witness :
  py "Big Store LTD" = py "Railway Corporation"
  \/ py "Big Store LTD" = py "Electro Galactica Company LTD"
  \/ py "Big Store LTD" = py "OPay"
  \/ (contains (py "Big Store LTD") scenario_1 = true /\ trimmed (py "Big Store LTD")
      /\ 3 < List.length (py "Big Store LTD")).
Proof.
  apply (simple_vendor_origin scenario_1 (py "Big Store LTD")). vm_compute. reflexivity.
Defined.

(** X7: ocr_processor.py returns no vendor only when every non-empty line
    of the text has 3 characters at most or carries [@], [transaction] or
    [receipt]. *)
Theorem vendor_missing_without_meaningful_line (text : str) :
  OcrProcessor.extract_vendor text = None ->
  Forall (fun line =>
            List.length line <= 3
            \/ any_in (map py ["@"; "transaction"; "receipt"]) (lower line) = true)
    (stripped_lines text).
Proof.
  unfold OcrProcessor.extract_vendor. intros H.
  destruct (first_some _ OcrProcessor.vendor_patterns); [discriminate |].
  destruct (first_some OcrProcessor.uppercase_line (stripped_lines text)); [discriminate |].
  cbn [Re.or_else] in H. apply first_some_none in H.
  eapply Forall_impl; [|exact H]. intros line Hline.
  unfold OcrProcessor.meaningful_line in Hline.
  destruct (Nat.ltb 3 (List.length line)) eqn:Hlen.
  - destruct (any_in _ (lower line)); [now right | discriminate].
  - left. apply Nat.ltb_ge in Hlen. exact Hlen.
Qed.

Lemma vendor_missing_without_meaningful_line_witness :
  Forall (fun line =>
            List.length line <= 3
            \/ any_in (map py ["@"; "transaction"; "receipt"]) (lower line) = true)
    (stripped_lines no_vendor).
Proof.
  apply (vendor_missing_without_meaningful_line no_vendor).
  vm_compute. reflexivity.
Defined.

(** X8: a line of punctuation is taken as the vendor and cleaned to the
    empty string: the vendor of a successful result can be [''], which is
    not [None]. *)
Theorem vendor_can_be_empty :
  OcrProcessor.extract_vendor (py "!!!!") = Some []
  /\ vendor (OcrProcessor.process_receipt (py "!!!!!!!!!!")) = Some []
  /\ success (OcrProcessor.process_receipt (py "!!!!!!!!!!")) = true.
Proof.
  repeat split; vm_compute; reflexivity.
Qed.
